(** * QR code API: storage and metadata consistency

    A shallow embedding of [app.py]: the storage provider interface with its
    two backends, the metadata upsert [update_metadata] and the six request
    handlers, followed by the properties of the metadata protocol.

    Conventions.
    - Python [str] and [bytes] are both [string] (a sequence of bytes; text
      is held by its UTF-8 encoding, so [.encode()] and [.decode()] are the
      identity on well-formed text).
    - Python [int] is [Z].
    - A handler is a computation in the monad [M]: it threads the storage
      [world] and either returns a value or raises a Python exception. *)

From Stdlib Require Import ZArith String Ascii List Bool Lia.
From stdpp Require Import base option gmap strings pretty.

Local Open Scope string_scope.
Local Open Scope Z_scope.
Local Set Warnings "-register-all".

(** ** Python values *)

Module Py.

(** The values a stored sidecar can denote once evaluated, restricted to
    the literals that [str(dict)] can print: [None], booleans, integers,
    strings, lists, and dictionaries with string keys. A dictionary keeps
    its insertion order, as a Python [dict] does. *)
Inductive pyval : Type :=
  | PNone
  | PBool (b : bool)
  | PInt (z : Z)
  | PStr (s : string)
  | PList (l : list pyval)
  | PDict (d : list (string * pyval)).

(** Python exceptions, as far as the handlers tell them apart:
    [HTTPException] carries the status the framework will answer with, every
    other exception is an [Exception] with its class name. *)
Inductive exn : Type :=
  | HTTPException (status_code : Z) (detail : string)
  | Exception (cls : string).

Inductive outcome (A : Type) : Type :=
  | Return (a : A)
  | Raise (e : exn).
Arguments Return {A} a.
Arguments Raise {A} e.

(** [d[k]] on the association list of a dictionary: first binding of [k]. *)
Fixpoint dict_get (k : string) (d : list (string * pyval)) : option pyval :=
  match d with
  | [] => None
  | (k', v) :: d' => if String.eqb k k' then Some v else dict_get k d'
  end.

(** [d[k] = x]: an existing key keeps its position, a new key goes last. *)
Fixpoint dict_set (k : string) (x : pyval) (d : list (string * pyval))
  : list (string * pyval) :=
  match d with
  | [] => [(k, x)]
  | (k', v) :: d' =>
      if String.eqb k k' then (k', x) :: d' else (k', v) :: dict_set k x d'
  end.

(** [v[k]] for a string subscript [k]. *)
Definition getitem (v : pyval) (k : string) : outcome pyval :=
  match v with
  | PDict d =>
      match dict_get k d with
      | Some x => Return x
      | None => Raise (Exception "KeyError")
      end
  | _ => Raise (Exception "TypeError")
  end.

(** [v[k] = x] for a string subscript [k]; the updated object is returned. *)
Definition setitem (v : pyval) (k : string) (x : pyval) : outcome pyval :=
  match v with
  | PDict d => Return (PDict (dict_set k x d))
  | _ => Raise (Exception "TypeError")
  end.

(** [v + n] for an integer [n]: defined on [int] and on [bool] (a subclass
    of [int]); a [TypeError] on every other value of the fragment. *)
Definition add_int (v : pyval) (n : Z) : outcome pyval :=
  match v with
  | PInt z => Return (PInt (z + n))
  | PBool b => Return (PInt (Z.b2z b + n))
  | _ => Raise (Exception "TypeError")
  end.

(** [s.replace(".png", "")]: every occurrence of [".png"], scanned from the
    left, is removed. *)
Fixpoint replace_png (s : string) : string :=
  match s with
  | String a (String b (String c (String d rest)) as t) =>
      if (Ascii.eqb a "." && Ascii.eqb b "p" && Ascii.eqb c "n"
          && Ascii.eqb d "g")%bool
      then replace_png rest
      else String a (replace_png t)
  | _ => s
  end.

(** *** [repr] of the fragment, which is what [str(metadata)] prints *)

Definition quote1 : ascii := "039"%char.   (* ' *)
Definition quote2 : ascii := "034"%char.   (* double quote *)
Definition backslash : ascii := "092"%char.

Definition hex_digit (n : N) : ascii :=
  ascii_of_N (if (n <? 10)%N then 48 + n else 87 + n)%N.

(** One character of a string literal delimited by [q]. Control characters
    are escaped; bytes from 128 up belong to the UTF-8 encoding of a
    non-ASCII character, which [repr] prints as it is when printable. *)
Definition repr_char (q c : ascii) : string :=
  let n := N_of_ascii c in
  if Ascii.eqb c backslash then String backslash (String backslash "")
  else if Ascii.eqb c q then String backslash (String q "")
  else if (n =? 10)%N then String backslash "n"
  else if (n =? 13)%N then String backslash "r"
  else if (n =? 9)%N then String backslash "t"
  else if ((n <? 32) || (n =? 127))%N then
    String backslash
      (String "x" (String (hex_digit (n / 16)) (String (hex_digit (n mod 16)) "")))
  else String c "".

Fixpoint has_char (c : ascii) (s : string) : bool :=
  match s with
  | EmptyString => false
  | String a s' => Ascii.eqb a c || has_char c s'
  end.

Fixpoint repr_chars (q : ascii) (s : string) : string :=
  match s with
  | EmptyString => EmptyString
  | String c s' => repr_char q c ++ repr_chars q s'
  end.

(** [repr(s)]: single quotes, unless the text has a single quote and no
    double quote. *)
Definition repr_str (s : string) : string :=
  let q := if (has_char quote1 s && negb (has_char quote2 s))%bool
           then quote2 else quote1 in
  String q (repr_chars q s ++ String q "").

Fixpoint join (sep : string) (l : list string) : string :=
  match l with
  | [] => ""
  | [x] => x
  | x :: l' => x ++ sep ++ join sep l'
  end.

Fixpoint repr (v : pyval) : string :=
  match v with
  | PNone => "None"
  | PBool true => "True"
  | PBool false => "False"
  | PInt z => pretty z
  | PStr s => repr_str s
  | PList l => "[" ++ join ", " (map repr l) ++ "]"
  | PDict d =>
      "{" ++ join ", " (map (fun kv => repr_str (fst kv) ++ ": " ++ repr (snd kv)) d)
          ++ "}"
  end.

(** [str(v)]: the text itself for a string, [repr(v)] for every other value
    of the fragment. *)
Definition str (v : pyval) : string :=
  match v with
  | PStr s => s
  | _ => repr v
  end.

(** *** [datetime] in UTC and its [isoformat()] *)

Record datetime : Type := mk_datetime {
  year : N; month : N; day : N;
  hour : N; minute : N; second : N; microsecond : N
}.

(** The ranges [datetime] enforces on its fields (the length of the month
    apart). *)
Definition datetime_ok (dt : datetime) : bool :=
  ((1 <=? year dt) && (year dt <=? 9999) && (1 <=? month dt) && (month dt <=? 12)
   && (1 <=? day dt) && (day dt <=? 31) && (hour dt <? 24) && (minute dt <? 60)
   && (second dt <? 60) && (microsecond dt <? 1000000))%N.

Definition digit_char (d : N) : ascii := ascii_of_N (48 + d).

(** [n] in decimal, zero-padded on the left to at least [width] digits
    (the format [%0<width>d]). *)
Fixpoint pad (width : nat) (n : N) : string :=
  match width with
  | O => if (n =? 0)%N then "" else pretty n
  | S width' => pad width' (n / 10)%N ++ String (digit_char (n mod 10)%N) ""
  end.

(** [dt.isoformat()] for an aware UTC datetime: the fraction is printed only
    when [microsecond] is not zero. *)
Definition isoformat (dt : datetime) : string :=
  pad 4 (year dt) ++ "-" ++ pad 2 (month dt) ++ "-" ++ pad 2 (day dt)
  ++ "T" ++ pad 2 (hour dt) ++ ":" ++ pad 2 (minute dt) ++ ":"
  ++ pad 2 (second dt)
  ++ (if (microsecond dt =? 0)%N then "" else "." ++ pad 6 (microsecond dt))
  ++ "+00:00".

Definition digit_of (c : ascii) : option N :=
  let n := N_of_ascii c in
  if ((48 <=? n) && (n <=? 57))%N then Some (n - 48)%N else None.

(** Reads exactly [k] decimal digits from the front of [s]. *)
Fixpoint read_digits (k : nat) (acc : N) (s : string) : option (N * string) :=
  match k with
  | O => Some (acc, s)
  | S k' =>
      match s with
      | String c s' =>
          match digit_of c with
          | Some d => read_digits k' (10 * acc + d)%N s'
          | None => None
          end
      | EmptyString => None
      end
  end.

(** Reads the literal [p] from the front of [s]. *)
Fixpoint expect (p s : string) : option string :=
  match p, s with
  | EmptyString, _ => Some s
  | String a p', String b s' => if Ascii.eqb a b then expect p' s' else None
  | String _ _, EmptyString => None
  end.

(** Parsing of a timestamp field, for the profile of ISO 8601 that
    [isoformat] emits: [YYYY-MM-DDTHH:MM:SS(.ffffff)+00:00]. *)
Definition fromisoformat (s : string) : option datetime :=
  '(y, s) ← read_digits 4 0 s; s ← expect "-" s;
  '(mo, s) ← read_digits 2 0 s; s ← expect "-" s;
  '(d, s) ← read_digits 2 0 s; s ← expect "T" s;
  '(h, s) ← read_digits 2 0 s; s ← expect ":" s;
  '(mi, s) ← read_digits 2 0 s; s ← expect ":" s;
  '(se, s) ← read_digits 2 0 s;
  '(us, s) ← match expect "." s with
             | Some s' => read_digits 6 0 s'
             | None => Some (0%N, s)
             end;
  if String.eqb s "+00:00"
  then Some (mk_datetime y mo d h mi se us) else None.

End Py.

Import Py.

(** ** Object storage *)

Module Storage.

(** A stored object: its bytes and the content type it was uploaded with. *)
Record blob : Type := mk_blob {
  body : string;
  content_type : option string
}.

(** The attributes of the two provider classes after [initialize]: the
    Azure provider keeps its container and the URL of the account, the
    MinIO provider its bucket and the endpoint it was configured with. *)
Record AzureBlobStorageProvider : Type := mk_azure {
  container_name : string;
  account_url : string
}.

Record MinioStorageProvider : Type := mk_minio {
  bucket_name : string;
  endpoint : string;
  secure : bool
}.

(** The provider selected by [STORAGE_TYPE] when the application starts. *)
Inductive provider : Type :=
  | Azure (self : AzureBlobStorageProvider)
  | Minio (self : MinioStorageProvider).

(** The requests a provider sends to the object store. *)
Inductive op : Type := OpUpload | OpDownload | OpDelete | OpExists.

(** How a request to the object store can go wrong: the service answers
    with an error ([S3Error] for MinIO, [HttpResponseError] for Azure), or
    the request itself fails with any other exception (connection refused,
    time-out). *)
Inductive fault : Type := NoFault | ServiceError | TransportError.

(** The state handlers run against: the provider, the objects of the
    container (already created by [initialize]), the length of the chunks a
    download is streamed in ([S chunk] bytes), and which requests to the
    object store fail while the current HTTP request is served. A request
    is identified by its kind and the name of the object. *)
Record world : Type := mk_world {
  storage : provider;
  blobs : gmap string blob;
  chunk : nat;
  faults : op -> string -> fault
}.

Definition set_blobs (b : gmap string blob) (w : world) : world :=
  mk_world (storage w) b (chunk w) (faults w).

Definition set_faults (f : op -> string -> fault) (w : world) : world :=
  mk_world (storage w) (blobs w) (chunk w) f.

(** *** The state and exception monad of the handlers *)

Definition M (A : Type) : Type := world -> outcome A * world.

Definition ret {A} (a : A) : M A := fun w => (Return a, w).

Definition raise {A} (e : exn) : M A := fun w => (Raise e, w).

Definition bind {A B} (m : M A) (k : A -> M B) : M B :=
  fun w =>
    match m w with
    | (Return a, w') => k a w'
    | (Raise e, w') => (Raise e, w')
    end.

(** [try: m except Exception: h]. Every exception of the model derives from
    [Exception], [HTTPException] included. *)
Definition try_except {A} (m : M A) (h : exn -> M A) : M A :=
  fun w =>
    match m w with
    | (Return a, w') => (Return a, w')
    | (Raise e, w') => h e w'
    end.

(** [try: m except cls: h] for an exception class [cls] of a client
    library: other exceptions pass through. *)
Definition try_except_class {A} (cls : string) (m : M A) (h : exn -> M A)
  : M A :=
  fun w =>
    match m w with
    | (Raise (Exception c), w') =>
        if String.eqb c cls then h (Exception c) w'
        else (Raise (Exception c), w')
    | other => other
    end.

(** A pure step that may raise. *)
Definition lift {A} (o : outcome A) : M A := fun w => (o, w).

Definition get_world : M world := fun w => (Return w, w).

Definition put_blobs (b : gmap string blob) : M unit :=
  fun w => (Return tt, set_blobs b w).

End Storage.

Import Storage.

Declare Scope py_scope.
Delimit Scope py_scope with py.
Notation "x <- m ;; k" := (bind m (fun x => k))
  (at level 100, m at next level, right associativity) : py_scope.
Notation "m ;; k" := (bind m (fun _ => k))
  (at level 100, right associativity) : py_scope.
Local Open Scope py_scope.

(** *** The object store behind the client libraries

    The four requests of the SDK clients. [err] is the class the client
    raises for an error answer of the service, a missing object included. *)

Module Client.

Definition failure (err : string) (f : fault) : exn :=
  match f with
  | ServiceError => Exception err
  | _ => Exception "ConnectionError"
  end.

(** Stores the object, replacing the one of the same name. *)
Definition put_object (err : string) (name data : string)
    (content_type : option string) : M unit :=
  w <- get_world ;;
  match faults w OpUpload name with
  | NoFault => put_blobs (<[name := mk_blob data content_type]> (blobs w))
  | f => raise (failure err f)
  end.

(** The byte stream of a download: chunks of [S n] bytes, the last one
    possibly shorter. [k] counts the bytes still missing from [cur]. *)
Fixpoint chunks_from (n k : nat) (cur : string) (s : string) : list string :=
  match s with
  | EmptyString => if String.eqb cur "" then [] else [cur]
  | String c s' =>
      match k with
      | O => (cur ++ String c "") :: chunks_from n n "" s'
      | S k' => chunks_from n k' (cur ++ String c "") s'
      end
  end.

Definition chunks (n : nat) (s : string) : list string := chunks_from n n "" s.

Definition get_object (err : string) (name : string) : M (list string) :=
  w <- get_world ;;
  match faults w OpDownload name with
  | NoFault =>
      match blobs w !! name with
      | Some b => ret (chunks (chunk w) (body b))
      | None => raise (Exception err)
      end
  | f => raise (failure err f)
  end.

(** Removes the object; a missing object is an error, as the contract of
    the storage interface has it. *)
Definition remove_object (err : string) (name : string) : M unit :=
  w <- get_world ;;
  match faults w OpDelete name with
  | NoFault =>
      match blobs w !! name with
      | Some _ => put_blobs (delete name (blobs w))
      | None => raise (Exception err)
      end
  | f => raise (failure err f)
  end.

(** The properties of the object ([get_blob_properties], [stat_object]). *)
Definition stat_object (err : string) (name : string) : M unit :=
  w <- get_world ;;
  match faults w OpExists name with
  | NoFault =>
      match blobs w !! name with
      | Some _ => ret tt
      | None => raise (Exception err)
      end
  | f => raise (failure err f)
  end.

End Client.

Import Client.

(** *** The storage interface and its two implementations *)

Class StorageProvider (P : Type) : Type := {
  upload_blob : P -> string -> string -> option string -> M string;
  download_blob : P -> string -> M (list string);
  delete_blob : P -> string -> M unit;
  blob_exists : P -> string -> M bool;
  get_blob_url : P -> string -> string
}.

Module AzureBlob.

Definition err : string := "HttpResponseError".

Definition get_blob_url (self : AzureBlobStorageProvider) (blob_name : string)
  : string :=
  account_url self ++ "/" ++ container_name self ++ "/" ++ blob_name.

Definition upload_blob (self : AzureBlobStorageProvider) (blob_name : string)
    (data : string) (content_type : option string) : M string :=
  let content_settings :=
    match content_type with
    | None | Some "" => None
    | Some ct => Some ct
    end in
  put_object err blob_name data content_settings ;;
  ret (get_blob_url self blob_name).

Definition download_blob (self : AzureBlobStorageProvider) (blob_name : string)
  : M (list string) :=
  get_object err blob_name.

Definition delete_blob (self : AzureBlobStorageProvider) (blob_name : string)
  : M unit :=
  remove_object err blob_name.

(** Every exception of the probe means [False]. *)
Definition blob_exists (self : AzureBlobStorageProvider) (blob_name : string)
  : M bool :=
  try_except (stat_object err blob_name ;; ret true) (fun _ => ret false).

End AzureBlob.

Module MinioStorage.

Definition err : string := "S3Error".

Definition get_blob_url (self : MinioStorageProvider) (blob_name : string)
  : string :=
  let protocol := if secure self then "https" else "http" in
  protocol ++ "://" ++ endpoint self ++ "/" ++ bucket_name self ++ "/"
  ++ blob_name.

(** The length handed to [put_object] is the length of the buffer or of the
    whole stream, so all of [data] is stored. *)
Definition upload_blob (self : MinioStorageProvider) (blob_name : string)
    (data : string) (content_type : option string) : M string :=
  let content_type :=
    match content_type with
    | None | Some "" => "application/octet-stream"
    | Some ct => ct
    end in
  put_object err blob_name data (Some content_type) ;;
  ret (get_blob_url self blob_name).

(** An [S3Error] is printed and raised again. *)
Definition download_blob (self : MinioStorageProvider) (blob_name : string)
  : M (list string) :=
  try_except_class err (get_object err blob_name) (fun e => raise e).

Definition delete_blob (self : MinioStorageProvider) (blob_name : string)
  : M unit :=
  try_except_class err (remove_object err blob_name) (fun e => raise e).

(** Only an [S3Error] of the probe means [False]. *)
Definition blob_exists (self : MinioStorageProvider) (blob_name : string)
  : M bool :=
  try_except_class err (stat_object err blob_name ;; ret true)
    (fun _ => ret false).

End MinioStorage.

#[export] Instance azure_provider : StorageProvider AzureBlobStorageProvider := {
  upload_blob := AzureBlob.upload_blob;
  download_blob := AzureBlob.download_blob;
  delete_blob := AzureBlob.delete_blob;
  blob_exists := AzureBlob.blob_exists;
  get_blob_url := AzureBlob.get_blob_url
}.

#[export] Instance minio_provider : StorageProvider MinioStorageProvider := {
  upload_blob := MinioStorage.upload_blob;
  download_blob := MinioStorage.download_blob;
  delete_blob := MinioStorage.delete_blob;
  blob_exists := MinioStorage.blob_exists;
  get_blob_url := MinioStorage.get_blob_url
}.

(** The module-level object [storage] of the application: calls go to the
    provider selected at start-up. *)
Module storage.

Definition upload_blob (blob_name data : string) (content_type : option string)
  : M string :=
  w <- get_world ;;
  match Storage.storage w with
  | Azure self => upload_blob self blob_name data content_type
  | Minio self => upload_blob self blob_name data content_type
  end.

Definition download_blob (blob_name : string) : M (list string) :=
  w <- get_world ;;
  match Storage.storage w with
  | Azure self => download_blob self blob_name
  | Minio self => download_blob self blob_name
  end.

Definition delete_blob (blob_name : string) : M unit :=
  w <- get_world ;;
  match Storage.storage w with
  | Azure self => delete_blob self blob_name
  | Minio self => delete_blob self blob_name
  end.

Definition blob_exists (blob_name : string) : M bool :=
  w <- get_world ;;
  match Storage.storage w with
  | Azure self => blob_exists self blob_name
  | Minio self => blob_exists self blob_name
  end.

(** The class of the service errors of the provider in use. *)
Definition err (w : world) : string :=
  match Storage.storage w with
  | Azure _ => AzureBlob.err
  | Minio _ => MinioStorage.err
  end.

End storage.

(** ** Request and response models *)

Module QRCodeRequest.
Record t : Type := mk { data : string; size : Z }.
End QRCodeRequest.

Module QRCodeResponse.
Record t : Type := mk { code_id : string; url : string }.
End QRCodeResponse.

Module UploadFile.
Record t : Type := mk { content_type : option string; file : string }.
End UploadFile.

Module QRCodeMetadata.

Record t : Type := mk {
  code_id : string;
  data : string;
  size : Z;
  created_at : datetime;
  last_accessed : datetime;
  access_count : Z
}.

Definition str_field (d : list (string * pyval)) (k : string) : outcome string :=
  match dict_get k d with
  | Some (PStr s) => Return s
  | _ => Raise (Exception "ValidationError")
  end.

Definition int_field (d : list (string * pyval)) (k : string) : outcome Z :=
  match dict_get k d with
  | Some (PInt z) => Return z
  | _ => Raise (Exception "ValidationError")
  end.

Definition datetime_field (d : list (string * pyval)) (k : string)
  : outcome datetime :=
  match dict_get k d with
  | Some (PStr s) =>
      match fromisoformat s with
      | Some dt => Return dt
      | None => Raise (Exception "ValidationError")
      end
  | _ => Raise (Exception "ValidationError")
  end.

(** The model built from the unpacked mapping [metadata]: the argument has
    to be a mapping, every field has to be present with a value of its
    declared type; other keys are ignored. Fields are checked on values of exactly the declared type,
    timestamps on the strings [fromisoformat] reads. *)
Definition new (metadata : pyval) : outcome t :=
  match metadata with
  | PDict d =>
      match str_field d "code_id", str_field d "data", int_field d "size",
            datetime_field d "created_at", datetime_field d "last_accessed",
            int_field d "access_count" with
      | Return c, Return da, Return sz, Return cr, Return la, Return ac =>
          Return (mk c da sz cr la ac)
      | _, _, _, _, _, _ => Raise (Exception "ValidationError")
      end
  | _ => Raise (Exception "TypeError")
  end.

End QRCodeMetadata.

(** ** The application *)

Module App.

(** [str(uuid.uuid4())]: the 32 hexadecimal digits of a 128-bit number,
    grouped 8-4-4-4-12. *)
Definition nibble (u : N) (i : nat) : N := ((u / 16 ^ N.of_nat i) mod 16)%N.

Definition hex_group (u : N) (hi len : nat) : string :=
  string_of_list_ascii
    (map (fun j => hex_digit (nibble u (hi - j))) (seq 0 len)).

Definition uuid_str (u : N) : string :=
  hex_group u 31 8 ++ "-" ++ hex_group u 23 4 ++ "-" ++ hex_group u 19 4
  ++ "-" ++ hex_group u 15 4 ++ "-" ++ hex_group u 11 12.

(** [app.root_path] of an application created without one. *)
Definition root_path : string := "".

(** What a request reads from outside the storage: the clock
    ([datetime.now(timezone.utc)]) and the random source ([uuid.uuid4()]). *)
Record env : Type := mk_env { now : datetime; uuid4 : N }.

Section Handlers.

(** [eval(content.decode())] on the bytes of a sidecar: the value of the
    text, or the exception that decoding or evaluating it raises. The
    evaluator is Python's own and is left open. *)
Variable eval : string -> outcome pyval.

(** The rendering of a QR image by the [qrcode] library: the PNG bytes, or
    [None] on inputs it cannot draw. *)
Variable render : string -> Z -> option string.

Definition generate_qr_code (data : string) (size : Z) : M string :=
  match render data size with
  | Some png => ret png
  | None => raise (Exception "ValueError")
  end.

(** The loop that drains a download into one buffer. *)
Definition read_all (stream : list string) : string :=
  fold_left String.append stream "".

(** The record [update_metadata] builds when it finds no usable sidecar. *)
Definition new_metadata (now : datetime) (code_id : string) (data : pyval)
    (size : Z) : pyval :=
  PDict [("code_id", PStr code_id);
         ("data", data);
         ("size", PInt size);
         ("created_at", PStr (isoformat now));
         ("last_accessed", PStr (isoformat now));
         ("access_count", PInt 1)].

(** The clock is read once, when the call starts: [now] is that reading. *)
Definition update_metadata (now : datetime) (code_id : string) (data : pyval)
    (size : Z) (is_access : bool) : M pyval :=
  let metadata_blob_name := code_id ++ ".metadata" in
  metadata <-
    try_except
      (found <- storage.blob_exists metadata_blob_name ;;
       if found then
         stream <- storage.download_blob metadata_blob_name ;;
         let metadata_content := read_all stream in
         metadata <- lift (eval metadata_content) ;;
         if is_access then
           count <- lift (getitem metadata "access_count") ;;
           count <- lift (add_int count 1) ;;
           metadata <- lift (setitem metadata "access_count" count) ;;
           lift (setitem metadata "last_accessed" (PStr (isoformat now)))
         else ret metadata
       else raise (Exception "Exception"))
      (fun _ => ret (new_metadata now code_id data size)) ;;
  storage.upload_blob metadata_blob_name (str metadata) (Some "application/json") ;;
  ret metadata.

Definition create_qr_code (e : env) (request : QRCodeRequest.t)
  : M QRCodeResponse.t :=
  let code_id := uuid_str (uuid4 e) ++ ".png" in
  qr_data <- generate_qr_code (QRCodeRequest.data request)
                              (QRCodeRequest.size request) ;;
  storage.upload_blob code_id qr_data (Some "image/png") ;;
  update_metadata (now e) (replace_png code_id)
    (PStr (QRCodeRequest.data request)) (QRCodeRequest.size request) false ;;
  ret (QRCodeResponse.mk code_id (root_path ++ "/api/qrcodes/" ++ code_id)).

(** The header [X-Qr-Data] is [None] when the request does not send it. *)
Definition upload_qr_code (e : env) (code_id : string) (file : UploadFile.t)
    (x_qr_data : option string) (x_qr_size : Z) : M QRCodeResponse.t :=
  if negb (bool_decide (UploadFile.content_type file = Some "image/png")) then
    raise (HTTPException 400 "Only PNG images are supported")
  else
    storage.upload_blob code_id (UploadFile.file file) (Some "image/png") ;;
    update_metadata (now e) (replace_png code_id)
      (match x_qr_data with Some s => PStr s | None => PNone end)
      x_qr_size false ;;
    ret (QRCodeResponse.mk code_id (root_path ++ "/api/qrcodes/" ++ code_id)).

(** The body of the [StreamingResponse] is the stream of the download. *)
Definition get_qr_code (e : env) (code_id : string) : M (list string) :=
  try_except
    (found <- storage.blob_exists code_id ;;
     if negb found then raise (HTTPException 404 "QR code not found")
     else
       update_metadata (now e) (replace_png code_id) (PStr "") 0 true ;;
       storage.download_blob code_id)
    (fun _ => raise (HTTPException 404 "QR code not found")).

Definition get_qr_code_metadata (code_id : string) : M QRCodeMetadata.t :=
  try_except
    (let metadata_blob_name := code_id ++ ".metadata" in
     found <- storage.blob_exists metadata_blob_name ;;
     if negb found then raise (HTTPException 404 "QR code metadata not found")
     else
       stream <- storage.download_blob metadata_blob_name ;;
       let metadata_content := read_all stream in
       metadata <- lift (eval metadata_content) ;;
       lift (QRCodeMetadata.new metadata))
    (fun _ => raise (HTTPException 404 "QR code metadata not found")).

Definition check_qr_code (code_id : string) : M unit :=
  try_except
    (found <- storage.blob_exists code_id ;;
     if found then ret tt
     else raise (HTTPException 404 "QR code not found"))
    (fun _ => raise (HTTPException 404 "QR code not found")).

Definition delete_qr_code (code_id : string) : M unit :=
  try_except
    (storage.delete_blob code_id ;;
     let metadata_blob_name := replace_png code_id ++ ".metadata" in
     found <- storage.blob_exists metadata_blob_name ;;
     if found then storage.delete_blob metadata_blob_name else ret tt)
    (fun _ => raise (HTTPException 404 "QR code not found")).

(** *** The HTTP surface *)

Inductive request : Type :=
  | POST_qrcodes (body : QRCodeRequest.t)
  | PUT_qrcode (code_id : string) (file : UploadFile.t)
      (x_qr_data : option string) (x_qr_size : Z)
  | GET_qrcode (code_id : string)
  | GET_qrcode_metadata (code_id : string)
  | HEAD_qrcode (code_id : string)
  | DELETE_qrcode (code_id : string).

Inductive content : Type :=
  | Created (r : QRCodeResponse.t)
  | Image (stream : list string)
  | Metadata (m : QRCodeMetadata.t)
  | Empty
  | Detail (detail : string)
  | InternalServerError.

Record response : Type := mk_response { status_code : Z; payload : content }.

(** What the framework answers for a handler: the status declared on the
    route when the handler returns, the status of an [HTTPException], and
    500 for any other exception that leaves the handler. *)
Definition respond {A} (success : Z) (to_content : A -> content) (h : M A)
  : world -> response * world :=
  fun w =>
    match h w with
    | (Return a, w') => (mk_response success (to_content a), w')
    | (Raise (HTTPException s d), w') => (mk_response s (Detail d), w')
    | (Raise (Exception _), w') => (mk_response 500 InternalServerError, w')
    end.

Definition handle (e : env) (r : request) : world -> response * world :=
  match r with
  | POST_qrcodes body => respond 201 Created (create_qr_code e body)
  | PUT_qrcode code_id file x_qr_data x_qr_size =>
      respond 201 Created (upload_qr_code e code_id file x_qr_data x_qr_size)
  | GET_qrcode code_id => respond 200 Image (get_qr_code e code_id)
  | GET_qrcode_metadata code_id =>
      respond 200 Metadata (get_qr_code_metadata code_id)
  | HEAD_qrcode code_id => respond 200 (fun _ => Empty) (check_qr_code code_id)
  | DELETE_qrcode code_id =>
      respond 204 (fun _ => Empty) (delete_qr_code code_id)
  end.

(** *** Vocabulary of the properties *)

(** The sidecar key the image handlers use for [code_id]. *)
Definition sidecar (code_id : string) : string :=
  replace_png code_id ++ ".metadata".

(** What the read phase of [update_metadata] obtains from the sidecar
    [name]: the evaluated content when the existence probe and the download
    succeed on an existing object, an exception otherwise. *)
Definition load (w : world) (name : string) : outcome pyval :=
  match faults w OpExists name, faults w OpDownload name, blobs w !! name with
  | NoFault, NoFault, Some b => eval (body b)
  | _, _, _ => Raise (Exception "Exception")
  end.

(** The two statements of the access branch, on the loaded value. *)
Definition touch (now : datetime) (metadata : pyval) : outcome pyval :=
  match getitem metadata "access_count" with
  | Return count =>
      match add_int count 1 with
      | Return count =>
          match setitem metadata "access_count" count with
          | Return metadata =>
              setitem metadata "last_accessed" (PStr (isoformat now))
          | Raise e => Raise e
          end
      | Raise e => Raise e
      end
  | Raise e => Raise e
  end.

(** The record [update_metadata] is about to upload. *)
Definition merged (now : datetime) (code_id : string) (data : pyval)
    (size : Z) (is_access : bool) (w : world) : pyval :=
  match load w (code_id ++ ".metadata") with
  | Return metadata =>
      if is_access then
        match touch now metadata with
        | Return metadata => metadata
        | Raise _ => new_metadata now code_id data size
        end
      else metadata
  | Raise _ => new_metadata now code_id data size
  end.

(** The world [update_metadata] leaves when its upload succeeds. *)
Definition upserted (now : datetime) (code_id : string) (data : pyval)
    (size : Z) (is_access : bool) (w : world) : world :=
  set_blobs
    (<[code_id ++ ".metadata" :=
         mk_blob (str (merged now code_id data size is_access w))
                 (Some "application/json")]> (blobs w)) w.

(** A series of non-access upserts of [code_id], each with its own clock
    reading, [data] and [size]. *)
Fixpoint upsert_all (code_id : string) (calls : list (datetime * pyval * Z))
    (w : world) : world :=
  match calls with
  | [] => w
  | (now, data, size) :: calls' =>
      upsert_all code_id calls'
        (snd (update_metadata now code_id data size false w))
  end.

(** The record a client of the storage reads under [name], if any. *)
Definition stored (w : world) (name : string) : option pyval :=
  match blobs w !! name with
  | Some b => match eval (body b) with Return v => Some v | Raise _ => None end
  | None => None
  end.

End Handlers.

(** No call on the object [name] fails. *)
Definition quiet (w : world) (name : string) : Prop :=
  forall o, faults w o name = NoFault.

End App.

Import App.

(** ** An evaluator for literals

    Python's [eval] is a parameter of the handlers. The examples run them
    with this evaluator, which reads the literals [repr] prints. *)

Module Literal.

Fixpoint skip_ws (s : string) : string :=
  match s with
  | String c s' => if Ascii.eqb c " " then skip_ws s' else s
  | EmptyString => s
  end.

Definition hex_value (c : ascii) : option N :=
  let n := N_of_ascii c in
  if ((48 <=? n) && (n <=? 57))%N then Some (n - 48)%N
  else if ((97 <=? n) && (n <=? 102))%N then Some (n - 87)%N
  else None.

(** The text of a string literal up to its closing quote [q]. *)
Fixpoint parse_string (q : ascii) (s : string) : option (string * string) :=
  match s with
  | EmptyString => None
  | String c rest =>
      if Ascii.eqb c q then Some ("", rest)
      else if Ascii.eqb c backslash then
        match rest with
        | String e rest' =>
            if Ascii.eqb e "x" then
              match rest' with
              | String h1 (String h2 rest'') =>
                  hi ← hex_value h1; lo ← hex_value h2;
                  '(t, r) ← parse_string q rest'';
                  Some (String (ascii_of_N (16 * hi + lo)) t, r)
              | _ => None
              end
            else
              c' ← (if Ascii.eqb e "n" then Some "010"%char
                    else if Ascii.eqb e "r" then Some "013"%char
                    else if Ascii.eqb e "t" then Some "009"%char
                    else if Ascii.eqb e backslash then Some backslash
                    else if Ascii.eqb e quote1 then Some quote1
                    else if Ascii.eqb e quote2 then Some quote2
                    else None);
              '(t, r) ← parse_string q rest';
              Some (String c' t, r)
        | EmptyString => None
        end
      else
        '(t, r) ← parse_string q rest;
        Some (String c t, r)
  end.

Fixpoint parse_digits (acc : Z) (s : string) : Z * string :=
  match s with
  | String c s' =>
      match digit_of c with
      | Some d => parse_digits (10 * acc + Z.of_N d) s'
      | None => (acc, s)
      end
  | EmptyString => (acc, s)
  end.

Definition is_quote (c : ascii) : bool := Ascii.eqb c quote1 || Ascii.eqb c quote2.

Fixpoint parse_value (fuel : nat) (s : string) : option (pyval * string) :=
  match fuel with
  | O => None
  | S fuel' =>
      match skip_ws s with
      | EmptyString => None
      | String c rest =>
          if Ascii.eqb c "{" then
            match expect "}" (skip_ws rest) with
            | Some r => Some (PDict [], r)
            | None => '(d, r) ← parse_items fuel' rest; Some (PDict d, r)
            end
          else if Ascii.eqb c "[" then
            match expect "]" (skip_ws rest) with
            | Some r => Some (PList [], r)
            | None => '(l, r) ← parse_elems fuel' rest; Some (PList l, r)
            end
          else if is_quote c then
            '(t, r) ← parse_string c rest; Some (PStr t, r)
          else if Ascii.eqb c "-" then
            match rest with
            | String d _ =>
                if bool_decide (is_Some (digit_of d)) then
                  let '(n, r) := parse_digits 0 rest in Some (PInt (- n), r)
                else None
            | EmptyString => None
            end
          else if bool_decide (is_Some (digit_of c)) then
            let '(n, r) := parse_digits 0 (String c rest) in Some (PInt n, r)
          else
            match expect "None" (String c rest), expect "True" (String c rest),
                  expect "False" (String c rest) with
            | Some r, _, _ => Some (PNone, r)
            | _, Some r, _ => Some (PBool true, r)
            | _, _, Some r => Some (PBool false, r)
            | _, _, _ => None
            end
      end
  end
with parse_items (fuel : nat) (s : string)
  : option (list (string * pyval) * string) :=
  match fuel with
  | O => None
  | S fuel' =>
      match skip_ws s with
      | EmptyString => None
      | String q rest =>
          if is_quote q then
            '(k, r) ← parse_string q rest;
            r ← expect ":" (skip_ws r);
            '(v, r) ← parse_value fuel' r;
            match skip_ws r with
            | String c r' =>
                if Ascii.eqb c "," then
                  '(d, r'') ← parse_items fuel' r'; Some ((k, v) :: d, r'')
                else if Ascii.eqb c "}" then Some ([(k, v)], r')
                else None
            | EmptyString => None
            end
          else None
      end
  end
with parse_elems (fuel : nat) (s : string) : option (list pyval * string) :=
  match fuel with
  | O => None
  | S fuel' =>
      '(v, r) ← parse_value fuel' s;
      match skip_ws r with
      | String c r' =>
          if Ascii.eqb c "," then
            '(l, r'') ← parse_elems fuel' r'; Some (v :: l, r'')
          else if Ascii.eqb c "]" then Some ([v], r')
          else None
      | EmptyString => None
      end
  end.

Definition literal_eval (s : string) : outcome pyval :=
  match parse_value (S (String.length s)) s with
  | Some (v, r) =>
      if String.eqb (skip_ws r) "" then Return v
      else Raise (Exception "SyntaxError")
  | None => Raise (Exception "SyntaxError")
  end.

End Literal.

Import Literal.

(** ** Concrete inputs for the examples *)

Module Demo.

Definition t0 : datetime := mk_datetime 2024 3 9 7 5 1 250.
Definition t1 : datetime := mk_datetime 2024 3 9 7 6 30 0.

Definition env0 : env := mk_env t0 0x123e4567e89b42d3a456426614174000.
Definition env1 : env := mk_env t1 0x00112233445546778899aabbccddeeff.

(** A renderer that draws every code as the same bytes. *)
Definition render (data : string) (size : Z) : option string :=
  if (size <=? 0)%Z then None else Some "PNG".

Definition png : UploadFile.t := UploadFile.mk (Some "image/png") "PNG".
Definition gif : UploadFile.t := UploadFile.mk (Some "image/gif") "GIF".

Definition no_faults : op -> string -> fault := fun _ _ => NoFault.

Definition minio : provider := Minio (mk_minio "qrcodes" "localhost:9000" false).

(** An empty bucket. *)
Definition empty : world := mk_world minio ∅ 3 no_faults.

Definition record_abc : list (string * pyval) :=
  [("code_id", PStr "abc"); ("data", PStr "https://example.com");
   ("size", PInt 200);
   ("created_at", PStr "2024-03-01T10:00:00+00:00");
   ("last_accessed", PStr "2024-03-02T11:30:00+00:00");
   ("access_count", PInt 4)].

Definition sidecar_abc : blob :=
  mk_blob (repr (PDict record_abc)) (Some "application/json").

(** A bucket with the image [abc.png] and its sidecar. *)
Definition with_abc : world :=
  mk_world minio
    (<["abc.metadata" := sidecar_abc]>
       (<["abc.png" := mk_blob "PNG" (Some "image/png")]> ∅))
    3 no_faults.

(** The same bucket, with a sidecar that does not evaluate. *)
Definition with_corrupt_abc : world :=
  mk_world minio
    (<["abc.metadata" := mk_blob "{'code_id': " (Some "application/json")]>
       (<["abc.png" := mk_blob "PNG" (Some "image/png")]> ∅))
    3 no_faults.


(** Every upload fails. *)
Definition uploads_fail : op -> string -> fault :=
  fun o name => match o with OpUpload => TransportError | _ => NoFault end.

End Demo.

(** ** Start-up of the providers *)

Module Startup.

(** The requests [initialize] sends. *)
Inductive call : Type := CreateContainer | BucketExists | MakeBucket.

(** The account (or server) a provider connects to: the containers
    (buckets) it holds, and which start-up requests fail. *)
Record service : Type := mk_service {
  containers : gset string;
  failing : call -> fault
}.

Definition set_containers (c : gset string) (s : service) : service :=
  mk_service c (failing s).

(** [create_container()]: an error answer when the container exists. *)
Definition create_container (name : string) (s : service)
  : outcome unit * service :=
  match failing s CreateContainer with
  | NoFault =>
      if bool_decide (name ∈ containers s)
      then (Raise (Exception "ResourceExistsError"), s)
      else (Return tt, set_containers ({[name]} ∪ containers s) s)
  | f => (Raise (failure AzureBlob.err f), s)
  end.

Definition bucket_exists (name : string) (s : service)
  : outcome bool * service :=
  match failing s BucketExists with
  | NoFault => (Return (bool_decide (name ∈ containers s)), s)
  | f => (Raise (failure MinioStorage.err f), s)
  end.

(** [make_bucket]: an [S3Error] when the bucket exists. *)
Definition make_bucket (name : string) (s : service)
  : outcome unit * service :=
  match failing s MakeBucket with
  | NoFault =>
      if bool_decide (name ∈ containers s)
      then (Raise (Exception MinioStorage.err), s)
      else (Return tt, set_containers ({[name]} ∪ containers s) s)
  | f => (Raise (failure MinioStorage.err f), s)
  end.

(** [AzureBlobStorageProvider.initialize], from the creation of the
    container on: every exception of [create_container] is passed over. *)
Definition azure_initialize (self : AzureBlobStorageProvider) (s : service)
  : outcome unit * service :=
  match create_container (container_name self) s with
  | (Return _, s') => (Return tt, s')
  | (Raise _, s') => (Return tt, s')
  end.

(** [MinioStorageProvider.initialize], from the check of the bucket on: the
    bucket is made when it is missing, an [S3Error] of either request is
    printed and passed over, any other exception leaves [initialize]. *)
Definition minio_initialize (self : MinioStorageProvider) (s : service)
  : outcome unit * service :=
  let attempt :=
    match bucket_exists (bucket_name self) s with
    | (Return found, s') =>
        if negb found then make_bucket (bucket_name self) s'
        else (Return tt, s')
    | (Raise e, s') => (Raise e, s')
    end in
  match attempt with
  | (Raise (Exception c), s') =>
      if String.eqb c MinioStorage.err then (Return tt, s')
      else (Raise (Exception c), s')
  | other => other
  end.

End Startup.

(** ** The load-test client *)

Module Locust.

(** What the client sends: the health check, for which the application
    declares no route, or one of the six routes. *)
Inductive target : Type :=
  | Health
  | Api (r : request).

Section Client.

Variable eval : string -> outcome pyval.
Variable render : string -> Z -> option string.

(** The answer of the server; a path without a route is answered with the
    404 of the framework. *)
Definition serve (e : env) (t : target) (w : world) : response * world :=
  match t with
  | Health => (mk_response 404 (Detail "Not Found"), w)
  | Api r => handle eval render e r w
  end.

(** The attribute [qr_code_id] of [ApiUser]; the id of the JSON answer is
    kept even when it is empty, in which case the request is marked as a
    failure. *)
Record ApiUser : Type := mk_user { qr_code_id : option string }.

(** One entry of the statistics: the name of the request and whether it was
    marked as a success. *)
Record entry : Type := mk_entry { name : string; success : bool }.

(** The state a task runs in: the user, the server and the entries so far
    (latest first). *)
Record session : Type := mk_session {
  user : ApiUser;
  server : world;
  log : list entry
}.

Definition check_api_health (e : env) (s : session) : session :=
  let '(r, w) := serve e Health (server s) in
  mk_session (user s) w
    (mk_entry "Check API Health" (status_code r =? 200)%Z :: log s).

Definition create_qr_code (e : env) (s : session) : session :=
  let payload := QRCodeRequest.mk "https://github.com" 300 in
  let '(r, w) := serve e (Api (POST_qrcodes payload)) (server s) in
  if ((status_code r =? 200) || (status_code r =? 201))%Z then
    match App.payload r with
    | Created c =>
        let id := QRCodeResponse.code_id c in
        mk_session (mk_user (Some id)) w
          (mk_entry "Create QR Code" (negb (String.eqb id "")) :: log s)
    | _ => mk_session (user s) w (mk_entry "Create QR Code" false :: log s)
    end
  else mk_session (user s) w (mk_entry "Create QR Code" false :: log s).

(** The tasks that need the id return at once when it is not set. *)
Definition with_id (s : session) (k : string -> session) : session :=
  match qr_code_id (user s) with
  | Some (String a rest) => k (String a rest)
  | _ => s
  end.

Definition get_qr_code_image (e : env) (s : session) : session :=
  with_id s (fun id =>
    let '(r, w) := serve e (Api (GET_qrcode id)) (server s) in
    mk_session (user s) w
      (mk_entry "Get QR Code Image" (status_code r =? 200)%Z :: log s)).

Definition get_qr_code_metadata (e : env) (s : session) : session :=
  with_id s (fun id =>
    let metadata_id := replace_png id in
    let '(r, w) := serve e (Api (GET_qrcode_metadata metadata_id)) (server s) in
    mk_session (user s) w
      (mk_entry "Get QR Code Metadata" (status_code r =? 200)%Z :: log s)).

Definition delete_qr_code (e : env) (s : session) : session :=
  with_id s (fun id =>
    let '(r, w) := serve e (Api (DELETE_qrcode id)) (server s) in
    mk_session (user s) w
      (mk_entry "Delete QR Code"
         ((status_code r =? 200) || (status_code r =? 204))%Z :: log s)).

Definition verify_qr_code_deleted (e : env) (s : session) : session :=
  with_id s (fun id =>
    let '(r, w) := serve e (Api (GET_qrcode id)) (server s) in
    mk_session (user s) w
      (mk_entry "Verify QR Code Deleted" (status_code r =? 404)%Z :: log s)).

(** [run_scenario]; [e1] and [e2] are what the server reads from its clock
    and random source while it serves the create and the first GET (the
    other requests read neither). *)
Definition run_scenario (e1 e2 : env) (s : session) : session :=
  let s := check_api_health e1 s in
  let s := create_qr_code e1 s in
  let s := get_qr_code_image e2 s in
  let s := get_qr_code_metadata e2 s in
  let s := delete_qr_code e2 s in
  verify_qr_code_deleted e2 s.

End Client.

End Locust.

(** ** Series of requests *)

Module Series.

Section Series.

Variable eval : string -> outcome pyval.
Variable render : string -> Z -> option string.

(** The world after one GET of the image [code_id] per entry of [es]. *)
Fixpoint get_all (es : list env) (code_id : string) (w : world) : world :=
  match es with
  | [] => w
  | e :: es' => get_all es' code_id (snd (handle eval render e (GET_qrcode code_id) w))
  end.

End Series.

(** The record after one access: the counter [n] goes up by one, the time of
    the access is noted. *)
Definition bump (now : datetime) (n : Z) (d : list (string * pyval))
  : list (string * pyval) :=
  dict_set "last_accessed" (PStr (isoformat now))
    (dict_set "access_count" (PInt (n + 1)) d).

(** The record after the accesses at [nows], the counter starting at [n]. *)
Fixpoint bumps (nows : list datetime) (n : Z) (d : list (string * pyval))
  : list (string * pyval) :=
  match nows with
  | [] => d
  | now :: nows' => bumps nows' (n + 1) (bump now n d)
  end.

End Series.

(** * Properties *)

Example repr_record :
  repr (PDict [("code_id", PStr "ab"); ("data", PNone); ("size", PInt 300)])
  = "{'code_id': 'ab', 'data': None, 'size': 300}".
Proof. reflexivity. Qed.

Example isoformat_example :
  isoformat (mk_datetime 2024 3 9 7 5 1 250) = "2024-03-09T07:05:01.000250+00:00".
Proof. reflexivity. Qed.

Example fromisoformat_example :
  fromisoformat "2024-03-09T07:05:01+00:00" = Some (mk_datetime 2024 3 9 7 5 1 0).
Proof. reflexivity. Qed.

Example replace_png_suffix : replace_png "abc.png" = "abc".
Proof. reflexivity. Qed.

Example replace_png_all : replace_png "a.png.pngb.pn" = "ab.pn".
Proof. reflexivity. Qed.

Example literal_eval_record :
  literal_eval "{'code_id': 'ab', 'data': None, 'size': -300, 'l': [1, 'x']}"
  = Return (PDict [("code_id", PStr "ab"); ("data", PNone); ("size", PInt (-300));
                   ("l", PList [PInt 1; PStr "x"])]).
Proof. vm_compute. reflexivity. Qed.

Example literal_eval_garbage : literal_eval "{'code_id': " = Raise (Exception "SyntaxError").
Proof. vm_compute. reflexivity. Qed.

Example pad_wide : pad 2 123 = "123".
Proof. vm_compute. reflexivity. Qed.

(** ** Strings *)

Lemma append_cons c s t : String c s ++ t = String c (s ++ t).
Proof. reflexivity. Qed.

Lemma append_nil_l s : "" ++ s = s.
Proof. reflexivity. Qed.

Lemma append_nil_r s : s ++ "" = s.
Proof. induction s as [|c s IH]; [reflexivity|]. by rewrite append_cons, IH. Qed.

Lemma append_assoc s t u : (s ++ t) ++ u = s ++ t ++ u.
Proof.
  induction s as [|c s IH]; [reflexivity|]. by rewrite !append_cons, IH.
Qed.

Lemma length_append s t :
  String.length (s ++ t) = (String.length s + String.length t)%nat.
Proof.
  induction s as [|c s IH]; [reflexivity|].
  rewrite append_cons. simpl. by rewrite IH.
Qed.

Lemma append_inj_r s t u : s ++ u = t ++ u -> s = t.
Proof.
  revert t. induction s as [|c s IH]; intros [|d t] H.
  - reflexivity.
  - apply (f_equal String.length) in H.
    rewrite !length_append in H. simpl in H. lia.
  - apply (f_equal String.length) in H.
    rewrite !length_append in H. simpl in H. lia.
  - rewrite !append_cons in H. injection H as -> H. f_equal. by apply IH.
Qed.

(** ** The download stream *)

Lemma read_all_from stream acc :
  fold_left String.append stream acc = acc ++ fold_left String.append stream "".
Proof.
  revert acc. induction stream as [|x l IH]; intros acc; simpl.
  - by rewrite append_nil_r.
  - rewrite (IH (acc ++ x)), (IH ("" ++ x)). by rewrite append_assoc.
Qed.

Lemma read_all_chunks_from n k cur s :
  read_all (chunks_from n k cur s) = cur ++ s.
Proof.
  unfold read_all. revert k cur.
  induction s as [|c s IH]; intros k cur; simpl.
  - destruct (String.eqb_spec cur "") as [->|_]; [reflexivity|].
    simpl. by rewrite append_nil_r.
  - destruct k as [|k]; simpl.
    + rewrite read_all_from, IH. change ("" ++ cur ++ String c "") with (cur ++ String c "").
      by rewrite append_assoc.
    + rewrite IH. by rewrite append_assoc.
Qed.

(** Draining the stream of a download gives back the stored bytes, whatever
    the chunk length. *)
Lemma read_all_chunks n s : read_all (chunks n s) = s.
Proof. unfold chunks. by rewrite read_all_chunks_from. Qed.

(** ** Dictionaries *)

Lemma dict_get_set_eq k x d : dict_get k (dict_set k x d) = Some x.
Proof.
  induction d as [|[k' v] d IH]; simpl.
  - by rewrite String.eqb_refl.
  - destruct (String.eqb_spec k k') as [->|Hne]; simpl.
    + by rewrite String.eqb_refl.
    + destruct (String.eqb_spec k k'); [done|]. apply IH.
Qed.

Lemma dict_get_set_ne k k' x d :
  k' <> k -> dict_get k' (dict_set k x d) = dict_get k' d.
Proof.
  intros Hne. induction d as [|[k0 v] d IH]; simpl.
  - destruct (String.eqb_spec k' k); [done|reflexivity].
  - destruct (String.eqb_spec k k0) as [->|Hk]; simpl.
    + destruct (String.eqb_spec k' k0); [done|reflexivity].
    + destruct (String.eqb_spec k' k0); [reflexivity|apply IH].
Qed.

(** ** Timestamps *)

Lemma digit_of_digit_char d : (d < 10)%N -> digit_of (digit_char d) = Some d.
Proof.
  intros Hd. unfold digit_of, digit_char.
  rewrite N_ascii_embedding by lia.
  replace (48 <=? 48 + d)%N with true by (symmetry; apply N.leb_le; lia).
  replace (48 + d <=? 57)%N with true by (symmetry; apply N.leb_le; lia).
  simpl. f_equal. lia.
Qed.

Lemma read_digits_snoc k acc t x c d rest :
  read_digits k acc t = Some (x, String c rest) ->
  digit_of c = Some d ->
  read_digits (S k) acc t = Some ((10 * x + d)%N, rest).
Proof.
  revert acc t. induction k as [|k IH]; intros acc t Hk Hc.
  - simpl in Hk. injection Hk as -> ->. simpl. by rewrite Hc.
  - destruct t as [|a t]; [discriminate|].
    simpl in Hk. destruct (digit_of a) as [da|] eqn:Ha; [|discriminate].
    specialize (IH _ _ Hk Hc).
    change (read_digits (S (S k)) acc (String a t))
      with (match digit_of a with
            | Some d0 => read_digits (S k) (10 * acc + d0)%N t
            | None => None
            end).
    by rewrite Ha.
Qed.

(** Reading back a zero-padded field that fits its width. *)
Lemma read_digits_pad k n acc rest :
  (n < 10 ^ N.of_nat k)%N ->
  read_digits k acc (pad k n ++ rest)
  = Some ((acc * 10 ^ N.of_nat k + n)%N, rest).
Proof.
  revert n rest. induction k as [|k IH]; intros n rest Hn.
  - simpl in Hn. assert (n = 0%N) as -> by lia.
    simpl. f_equal. f_equal. lia.
  - rewrite Nat2N.inj_succ, N.pow_succ_r' in *.
    assert (Hq : (n / 10 < 10 ^ N.of_nat k)%N)
      by (apply N.Div0.div_lt_upper_bound; lia).
    assert (Hr : (n mod 10 < 10)%N) by (apply N.mod_lt; lia).
    pose proof (N.div_mod n 10 ltac:(lia)) as Hdm.
    change (pad (S k) n)
      with (pad k (n / 10)%N ++ String (digit_char (n mod 10)%N) "").
    rewrite append_assoc.
    change (String (digit_char (n mod 10)%N) "" ++ rest)
      with (String (digit_char (n mod 10)%N) rest).
    rewrite (read_digits_snoc k acc _ _ _ (n mod 10)%N rest
               (IH _ _ Hq) (digit_of_digit_char _ Hr)).
    f_equal. f_equal. lia.
Qed.

Lemma expect_append p s : expect p (p ++ s) = Some s.
Proof.
  induction p as [|c p IH]; [reflexivity|].
  rewrite append_cons. simpl. by rewrite Ascii.eqb_refl.
Qed.

#[local] Arguments pad : simpl never.
#[local] Arguments read_digits : simpl never.
#[local] Arguments expect : simpl never.

(** [isoformat] is read back by [fromisoformat] on every well-formed
    timestamp. *)
Lemma fromisoformat_isoformat dt :
  datetime_ok dt = true -> fromisoformat (isoformat dt) = Some dt.
Proof.
  destruct dt as [y mo d h mi se us]. unfold datetime_ok, isoformat. simpl.
  rewrite !andb_true_iff, !N.leb_le, !N.ltb_lt.
  intros (((((((((Hy1 & Hy2) & Hm1) & Hm2) & Hd1) & Hd2) & Hh) & Hmi) & Hs) & Hus).
  unfold fromisoformat.
  do 6 (rewrite read_digits_pad by (simpl; lia); simpl;
        rewrite ?expect_append; simpl; rewrite ?append_nil_l).
  destruct (N.eqb_spec us 0) as [->|Hne].
  - reflexivity.
  - rewrite ?expect_append; simpl; rewrite ?append_nil_l.
    rewrite read_digits_pad by (simpl; lia). simpl.
    reflexivity.
Qed.

(** ** Identifiers *)

Lemma has_char_append c s t : has_char c (s ++ t) = has_char c s || has_char c t.
Proof.
  induction s as [|a s IH]; [reflexivity|].
  rewrite append_cons. simpl. by rewrite IH, orb_assoc.
Qed.

Lemma replace_png_cons a t :
  a <> "."%char -> replace_png (String a t) = String a (replace_png t).
Proof.
  intros Ha. apply Ascii.eqb_neq in Ha.
  destruct t as [|b [|c [|d rest]]]; try reflexivity.
  simpl. by rewrite Ha.
Qed.

(** Removing [".png"] from a name whose stem has no dot removes exactly the
    suffix. *)
Lemma replace_png_stem s :
  has_char "." s = false -> replace_png (s ++ ".png") = s.
Proof.
  induction s as [|a s IH]; intros Hs; [reflexivity|].
  simpl in Hs. apply orb_false_iff in Hs as [Ha Hs].
  rewrite append_cons, replace_png_cons by (by apply Ascii.eqb_neq).
  by rewrite IH.
Qed.

Lemma replace_png_length_upto n s :
  (String.length s <= n)%nat ->
  exists k, String.length s = (String.length (replace_png s) + 4 * k)%nat.
Proof.
  revert s. induction n as [|n IH]; intros s Hn.
  - destruct s; [|simpl in Hn; lia]. by exists O.
  - destruct s as [|a [|b [|c [|d rest]]]]; try (by exists O).
    simpl in Hn. simpl replace_png.
    destruct (Ascii.eqb a "." && Ascii.eqb b "p" && Ascii.eqb c "n"
              && Ascii.eqb d "g")%bool.
    + destruct (IH rest ltac:(lia)) as [k Hk]. exists (S k). simpl. lia.
    + destruct (IH (String b (String c (String d rest))) ltac:(simpl; lia))
        as [k Hk].
      exists k. simpl in *. lia.
Qed.

(** The sidecar of an image is never the image itself: the calls a handler
    makes on the two objects are different calls on the backend. *)
Lemma sidecar_not_image code_id : sidecar code_id <> code_id.
Proof.
  intros H. apply (f_equal String.length) in H.
  unfold sidecar in H. rewrite length_append in H. simpl in H.
  destruct (replace_png_length_upto _ code_id (le_n _)) as [k Hk]. lia.
Qed.

Lemma hex_digit_not_dot n : (n < 16)%N -> Ascii.eqb (hex_digit n) "." = false.
Proof.
  intros Hn. apply Ascii.eqb_neq. intros H.
  apply (f_equal N_of_ascii) in H. unfold hex_digit in H.
  rewrite N_ascii_embedding in H by (destruct (n <? 10)%N; lia).
  change (N_of_ascii ".") with 46%N in H.
  destruct (n <? 10)%N; lia.
Qed.

Lemma hex_group_no_dot u hi len : has_char "." (hex_group u hi len) = false.
Proof.
  unfold hex_group. induction (seq 0 len) as [|j l IH]; [reflexivity|].
  simpl. rewrite IH, orb_false_r.
  apply hex_digit_not_dot. unfold nibble. apply N.mod_lt. lia.
Qed.

Lemma uuid_str_no_dot u : has_char "." (uuid_str u) = false.
Proof.
  unfold uuid_str. rewrite !has_char_append, !hex_group_no_dot. reflexivity.
Qed.

(** The key under which [create_qr_code] files the metadata of the code it
    generates is the UUID followed by [".metadata"]. *)
Lemma sidecar_generated u : sidecar (uuid_str u ++ ".png") = uuid_str u ++ ".metadata".
Proof. unfold sidecar. by rewrite replace_png_stem by apply uuid_str_no_dot. Qed.

(** ** The storage interface *)

Lemma faults_set_blobs b w : faults (set_blobs b w) = faults w.
Proof. reflexivity. Qed.

Lemma blobs_set_blobs b w : blobs (set_blobs b w) = b.
Proof. reflexivity. Qed.

Lemma storage_set_blobs b w : storage (set_blobs b w) = storage w.
Proof. reflexivity. Qed.

(** The existence probe answers for the stored objects when the request
    succeeds; a failed request reads as [False], except that the MinIO
    provider lets an exception other than [S3Error] through. *)
Lemma blob_exists_run name w :
  storage.blob_exists name w
  = match faults w OpExists name with
    | NoFault => (Return (bool_decide (is_Some (blobs w !! name))), w)
    | ServiceError => (Return false, w)
    | TransportError =>
        match storage w with
        | Azure _ => (Return false, w)
        | Minio _ => (Raise (Exception "ConnectionError"), w)
        end
    end.
Proof.
  unfold storage.blob_exists, get_world, bind.
  destruct (storage w); simpl;
    unfold AzureBlob.blob_exists, MinioStorage.blob_exists, try_except,
      try_except_class, stat_object, get_world, bind, ret, raise;
    destruct (faults w OpExists name); try reflexivity;
    by destruct (blobs w !! name).
Qed.

Lemma download_blob_run name w :
  storage.download_blob name w
  = match faults w OpDownload name, blobs w !! name with
    | NoFault, Some b => (Return (chunks (chunk w) (body b)), w)
    | NoFault, None => (Raise (Exception (storage.err w)), w)
    | f, _ => (Raise (failure (storage.err w) f), w)
    end.
Proof.
  unfold storage.download_blob, storage.err, get_world, bind.
  destruct (storage w); simpl;
    unfold AzureBlob.download_blob, MinioStorage.download_blob,
      try_except_class, get_object, get_world, bind, ret, raise;
    destruct (faults w OpDownload name); try reflexivity;
    by destruct (blobs w !! name).
Qed.

Lemma delete_blob_run name w :
  storage.delete_blob name w
  = match faults w OpDelete name, blobs w !! name with
    | NoFault, Some _ => (Return tt, set_blobs (delete name (blobs w)) w)
    | NoFault, None => (Raise (Exception (storage.err w)), w)
    | f, _ => (Raise (failure (storage.err w) f), w)
    end.
Proof.
  unfold storage.delete_blob, storage.err, get_world, bind.
  destruct (storage w); simpl;
    unfold AzureBlob.delete_blob, MinioStorage.delete_blob,
      try_except_class, remove_object, get_world, bind, ret, raise, put_blobs;
    destruct (faults w OpDelete name); try reflexivity;
    by destruct (blobs w !! name).
Qed.

(** A successful upload stores the bytes under the name, with the content
    type the caller gave. *)
Lemma upload_blob_ok name data ct w :
  faults w OpUpload name = NoFault -> ct <> "" ->
  exists url,
    storage.upload_blob name data (Some ct) w
    = (Return url, set_blobs (<[name := mk_blob data (Some ct)]> (blobs w)) w).
Proof.
  intros Hf Hct.
  unfold storage.upload_blob, get_world, bind.
  destruct (storage w); simpl;
    unfold AzureBlob.upload_blob, MinioStorage.upload_blob, put_object,
      get_world, bind, ret, put_blobs;
    rewrite Hf; destruct ct; try done; eauto.
Qed.

(** A failed upload raises and leaves the storage as it was. *)
Lemma upload_blob_fault name data ct w :
  faults w OpUpload name <> NoFault ->
  storage.upload_blob name data ct w
  = (Raise (failure (storage.err w) (faults w OpUpload name)), w).
Proof.
  intros Hf.
  unfold storage.upload_blob, storage.err, get_world, bind.
  destruct (storage w); simpl;
    unfold AzureBlob.upload_blob, MinioStorage.upload_blob, put_object,
      get_world, bind, raise;
    by destruct (faults w OpUpload name).
Qed.

(** ** The metadata upsert *)

Section Upsert.

Variable eval : string -> outcome pyval.

(** The read phase never raises and never writes: it yields [merged]. *)
Lemma update_metadata_read now code_id data size (is_access : bool) w :
  try_except
    (found <- storage.blob_exists (code_id ++ ".metadata") ;;
     if found then
       stream <- storage.download_blob (code_id ++ ".metadata") ;;
       metadata <- lift (eval (read_all stream)) ;;
       if is_access then
         count <- lift (getitem metadata "access_count") ;;
         count <- lift (add_int count 1) ;;
         metadata <- lift (setitem metadata "access_count" count) ;;
         lift (setitem metadata "last_accessed" (PStr (isoformat now)))
       else ret metadata
     else raise (Exception "Exception"))
    (fun _ => ret (new_metadata now code_id data size)) w
  = (Return (merged eval now code_id data size is_access w), w).
Proof.
  unfold merged, load, try_except. unfold bind at 1.
  rewrite blob_exists_run.
  destruct (faults w OpExists (code_id ++ ".metadata")) eqn:He;
    [|reflexivity|destruct (storage w); reflexivity].
  destruct (blobs w !! (code_id ++ ".metadata")) as [b|] eqn:Hb; simpl.
  - unfold bind at 1. rewrite download_blob_run, Hb.
    destruct (faults w OpDownload (code_id ++ ".metadata")) eqn:Hd;
      [|reflexivity..].
    rewrite read_all_chunks. unfold bind, lift, ret.
    destruct (eval (body b)) as [v|e]; [|reflexivity].
    destruct is_access; [|reflexivity].
    unfold touch.
    destruct (getitem v "access_count") as [c|]; [|reflexivity].
    destruct (add_int c 1) as [c'|]; [|reflexivity].
    destruct (setitem v "access_count" c') as [v'|]; [|reflexivity].
    destruct (setitem v' "last_accessed" _); reflexivity.
  - destruct (faults w OpDownload (code_id ++ ".metadata")); reflexivity.
Qed.

(** [update_metadata] uploads [merged] and returns it; when the upload
    fails, the exception leaves the call and nothing is written. *)
Lemma update_metadata_run now code_id data size is_access w :
  update_metadata eval now code_id data size is_access w
  = match faults w OpUpload (code_id ++ ".metadata") with
    | NoFault =>
        (Return (merged eval now code_id data size is_access w),
         set_blobs
           (<[code_id ++ ".metadata" :=
                mk_blob (str (merged eval now code_id data size is_access w))
                        (Some "application/json")]> (blobs w)) w)
    | f => (Raise (failure (storage.err w) f), w)
    end.
Proof.
  unfold update_metadata.
  unfold bind at 1. rewrite update_metadata_read.
  unfold bind at 1.
  destruct (faults w OpUpload (code_id ++ ".metadata")) eqn:Hu.
  - destruct (upload_blob_ok (code_id ++ ".metadata")
                (str (merged eval now code_id data size is_access w))
                "application/json" w Hu ltac:(done)) as [url ->].
    reflexivity.
  - rewrite upload_blob_fault by congruence. by rewrite Hu.
  - rewrite upload_blob_fault by congruence. by rewrite Hu.
Qed.

End Upsert.

Example uuid_str_example :
  uuid_str (uuid4 Demo.env0) = "123e4567-e89b-42d3-a456-426614174000".
Proof. vm_compute. reflexivity. Qed.

Example literal_eval_demo :
  literal_eval (body Demo.sidecar_abc) = Return (PDict Demo.record_abc).
Proof. vm_compute. reflexivity. Qed.

(** ** Claims about the upsert *)

(** C1. When the sidecar of [code_id] exists and evaluates to a record whose
    [access_count] is the integer [n], and no call on the sidecar fails, an
    access upsert returns and stores (as [str] of it) a record whose
    [access_count] is [n + 1] and whose [last_accessed] is the timestamp
    read at the start of the call; every other field is as before. *)
Theorem access_event_increments eval now code_id data size w b d n :
  blobs w !! (code_id ++ ".metadata") = Some b ->
  eval (body b) = Return (PDict d) ->
  dict_get "access_count" d = Some (PInt n) ->
  quiet w (code_id ++ ".metadata") ->
  exists d' w',
    update_metadata eval now code_id data size true w = (Return (PDict d'), w')
    /\ blobs w' !! (code_id ++ ".metadata")
       = Some (mk_blob (str (PDict d')) (Some "application/json"))
    /\ dict_get "access_count" d' = Some (PInt (n + 1))
    /\ dict_get "last_accessed" d' = Some (PStr (isoformat now))
    /\ forall k, k <> "access_count" -> k <> "last_accessed" ->
                 dict_get k d' = dict_get k d.
Proof.
  intros Hb Hev Hn Hq.
  rewrite update_metadata_run, (Hq OpUpload).
  unfold merged, load. rewrite (Hq OpExists), (Hq OpDownload), Hb, Hev.
  unfold touch, getitem. rewrite Hn. simpl.
  eexists _, _. split; [reflexivity|]. simpl.
  split; [apply lookup_insert_eq|].
  split; [|split].
  - rewrite dict_get_set_ne by done. apply dict_get_set_eq.
  - apply dict_get_set_eq.
  - intros k Hk1 Hk2. by rewrite !dict_get_set_ne.
Qed.

Lemma access_event_increments_witness :
  exists d' w',
    update_metadata literal_eval Demo.t1 "abc" (PStr "") 0 true Demo.with_abc
    = (Return (PDict d'), w')
    /\ blobs w' !! ("abc" ++ ".metadata")
       = Some (mk_blob (str (PDict d')) (Some "application/json"))
    /\ dict_get "access_count" d' = Some (PInt (4 + 1))
    /\ dict_get "last_accessed" d' = Some (PStr (isoformat Demo.t1))
    /\ forall k, k <> "access_count" -> k <> "last_accessed" ->
                 dict_get k d' = dict_get k Demo.record_abc.
Proof.
  apply (access_event_increments literal_eval Demo.t1 "abc" (PStr "") 0
           Demo.with_abc Demo.sidecar_abc Demo.record_abc 4).
  - vm_compute. reflexivity.
  - vm_compute. reflexivity.
  - reflexivity.
  - intros o. reflexivity.
Defined.

(** One non-access upsert of a sidecar that evaluates to [v]: the record
    read back afterwards is [v] again, whether or not the upload succeeds,
    and [v] is what the call returns when it does. *)
Lemma non_access_upsert_step eval now code_id data size w v :
  stored eval w (code_id ++ ".metadata") = Some v ->
  eval (str v) = Return v ->
  faults w OpExists (code_id ++ ".metadata") = NoFault ->
  faults w OpDownload (code_id ++ ".metadata") = NoFault ->
  stored eval (snd (update_metadata eval now code_id data size false w))
    (code_id ++ ".metadata") = Some v
  /\ faults (snd (update_metadata eval now code_id data size false w)) = faults w
  /\ (faults w OpUpload (code_id ++ ".metadata") = NoFault ->
      fst (update_metadata eval now code_id data size false w) = Return v).
Proof.
  intros Hst Hrt He Hd.
  assert (Hm : merged eval now code_id data size false w = v).
  { unfold merged, load. rewrite He, Hd. unfold stored in Hst.
    destruct (blobs w !! (code_id ++ ".metadata")) as [b|]; [|done].
    destruct (eval (body b)); congruence. }
  rewrite update_metadata_run, Hm.
  destruct (faults w OpUpload (code_id ++ ".metadata")); simpl.
  - split; [|done]. unfold stored. simpl.
    by rewrite lookup_insert_eq; simpl; rewrite Hrt.
  - done.
  - done.
Qed.

(** C3. When the sidecar of [code_id] exists and evaluates to [v] (and the
    text [str(v)] evaluates back to [v]), non-access upserts with any [data]
    and [size], repeated any number of times, leave the stored record equal
    to [v]: all of [code_id], [data], [size], [created_at], [last_accessed]
    and [access_count] read the same before and after, whether or not the
    uploads succeed; and an upsert whose upload succeeds returns [v]. *)
Theorem non_access_upsert_preserves eval code_id calls w b v :
  blobs w !! (code_id ++ ".metadata") = Some b ->
  eval (body b) = Return v ->
  eval (str v) = Return v ->
  faults w OpExists (code_id ++ ".metadata") = NoFault ->
  faults w OpDownload (code_id ++ ".metadata") = NoFault ->
  stored eval w (code_id ++ ".metadata") = Some v
  /\ stored eval (upsert_all eval code_id calls w) (code_id ++ ".metadata")
     = Some v
  /\ (forall now data size,
        faults w OpUpload (code_id ++ ".metadata") = NoFault ->
        fst (update_metadata eval now code_id data size false w) = Return v).
Proof.
  intros Hb Hev Hrt He Hd.
  assert (Hst : stored eval w (code_id ++ ".metadata") = Some v)
    by (unfold stored; by rewrite Hb, Hev).
  split; [done|]. split.
  - clear Hb Hev. revert w Hst He Hd.
    induction calls as [|[[now data] size] calls IH]; intros w Hst He Hd;
      [done|].
    destruct (non_access_upsert_step eval now code_id data size w v
                Hst Hrt He Hd) as (Hst' & Hf & _).
    simpl. apply IH; [done|by rewrite Hf..].
  - intros now data size Hu.
    by apply (non_access_upsert_step eval now code_id data size w v).
Qed.

Lemma non_access_upsert_preserves_witness :
  let calls := [(Demo.t0, PStr "other", 999); (Demo.t1, PNone, 0)] in
  stored literal_eval Demo.with_abc ("abc" ++ ".metadata")
  = Some (PDict Demo.record_abc)
  /\ stored literal_eval (upsert_all literal_eval "abc" calls Demo.with_abc)
       ("abc" ++ ".metadata") = Some (PDict Demo.record_abc)
  /\ (forall now data size,
        faults Demo.with_abc OpUpload ("abc" ++ ".metadata") = NoFault ->
        fst (update_metadata literal_eval now "abc" data size false Demo.with_abc)
        = Return (PDict Demo.record_abc)).
Proof.
  apply (non_access_upsert_preserves literal_eval "abc"
           [(Demo.t0, PStr "other", 999); (Demo.t1, PNone, 0)]
           Demo.with_abc Demo.sidecar_abc (PDict Demo.record_abc)).
  - vm_compute. reflexivity.
  - vm_compute. reflexivity.
  - vm_compute. reflexivity.
  - reflexivity.
  - reflexivity.
Defined.

(** C4. When the sidecar of [code_id] is absent, does not evaluate, or
    cannot be read (the existence probe or the download fails), and the
    upload succeeds, the upsert returns and stores the fresh record:
    [access_count] 1, [created_at] and [last_accessed] both the timestamp
    read at the start of the call, [data] and [size] the arguments. *)
Theorem unusable_sidecar_gives_fresh_record
    eval now code_id data size is_access w :
  blobs w !! (code_id ++ ".metadata") = None
  \/ (exists b e, blobs w !! (code_id ++ ".metadata") = Some b
                  /\ eval (body b) = Raise e)
  \/ faults w OpExists (code_id ++ ".metadata") <> NoFault
  \/ faults w OpDownload (code_id ++ ".metadata") <> NoFault ->
  faults w OpUpload (code_id ++ ".metadata") = NoFault ->
  let fresh :=
    PDict [("code_id", PStr code_id); ("data", data); ("size", PInt size);
           ("created_at", PStr (isoformat now));
           ("last_accessed", PStr (isoformat now));
           ("access_count", PInt 1)] in
  update_metadata eval now code_id data size is_access w
  = (Return fresh,
     set_blobs (<[code_id ++ ".metadata" :=
                    mk_blob (str fresh) (Some "application/json")]> (blobs w)) w).
Proof.
  intros Hcase Hu fresh.
  assert (Hm : merged eval now code_id data size is_access w = fresh).
  { unfold merged, load.
    destruct Hcase as [Hb|[(b & e & Hb & Hev)|[He|Hd]]].
    - rewrite Hb. by destruct (faults w OpExists), (faults w OpDownload).
    - rewrite Hb, Hev. by destruct (faults w OpExists), (faults w OpDownload).
    - by destruct (faults w OpExists).
    - by destruct (faults w OpExists), (faults w OpDownload). }
  by rewrite update_metadata_run, Hu, Hm.
Qed.

Lemma unusable_sidecar_gives_fresh_record_witness :
  let fresh :=
    PDict [("code_id", PStr "abc"); ("data", PStr "hello"); ("size", PInt 120);
           ("created_at", PStr (isoformat Demo.t1));
           ("last_accessed", PStr (isoformat Demo.t1));
           ("access_count", PInt 1)] in
  update_metadata literal_eval Demo.t1 "abc" (PStr "hello") 120 false
    Demo.with_corrupt_abc
  = (Return fresh,
     set_blobs (<["abc" ++ ".metadata" :=
                    mk_blob (str fresh) (Some "application/json")]>
                  (blobs Demo.with_corrupt_abc)) Demo.with_corrupt_abc).
Proof.
  apply (unusable_sidecar_gives_fresh_record literal_eval Demo.t1 "abc"
           (PStr "hello") 120 false Demo.with_corrupt_abc).
  - right. left. exists (mk_blob "{'code_id': " (Some "application/json")).
    exists (Exception "SyntaxError"). split; vm_compute; reflexivity.
  - reflexivity.
Defined.

(** ** The handlers, case by case *)

Section Cases.

Variable eval : string -> outcome pyval.
Variable render : string -> Z -> option string.

(** [get_qr_code] returns the stream exactly when the image is found, the
    metadata upload succeeds and the download of the image succeeds; in
    every other case it raises the 404. *)
Lemma get_qr_code_cases e code_id w :
  let w1 := upserted eval (now e) (replace_png code_id) (PStr "") 0 true w in
  (exists b,
      faults w OpExists code_id = NoFault /\ is_Some (blobs w !! code_id)
      /\ faults w OpUpload (sidecar code_id) = NoFault
      /\ faults w OpDownload code_id = NoFault
      /\ blobs w1 !! code_id = Some b
      /\ get_qr_code eval e code_id w = (Return (chunks (chunk w) (body b)), w1))
  \/ (get_qr_code eval e code_id w
      = (Raise (HTTPException 404 "QR code not found"), w)
      /\ (faults w OpExists code_id <> NoFault \/ blobs w !! code_id = None
          \/ faults w OpUpload (sidecar code_id) <> NoFault))
  \/ (get_qr_code eval e code_id w
      = (Raise (HTTPException 404 "QR code not found"), w1)
      /\ faults w OpUpload (sidecar code_id) = NoFault
      /\ faults w OpDownload code_id <> NoFault).
Proof.
  intros w1. unfold get_qr_code, try_except, bind.
  rewrite blob_exists_run.
  destruct (faults w OpExists code_id) eqn:He;
    [|right; left; split; [reflexivity|left; congruence]
     |right; left; destruct (storage w);
        (split; [reflexivity|left; congruence])].
  destruct (blobs w !! code_id) as [b0|] eqn:Hb; simpl;
    [|right; left; split; [reflexivity|by right; left]].
  rewrite update_metadata_run. fold (sidecar code_id).
  destruct (faults w OpUpload (sidecar code_id)) eqn:Hu;
    [|right; left; split; [reflexivity|right; right; congruence]..].
  rewrite download_blob_run, faults_set_blobs.
  destruct (faults w OpDownload code_id) eqn:Hd;
    [|right; right; split; [reflexivity|split; congruence]..].
  assert (Hsome : is_Some (blobs w1 !! code_id)).
  { unfold w1, upserted. simpl. rewrite lookup_insert.
    case_decide; [eauto|]. rewrite Hb. eauto. }
  destruct Hsome as [b Hb1].
  left. exists b. repeat split; eauto.
  unfold w1, upserted in Hb1. unfold sidecar. by rewrite Hb1.
Qed.

Lemma bind_ret {A B} (a : A) (k : A -> M B) : bind (ret a) k = k a.
Proof. reflexivity. Qed.

(** A handler wrapped in [try/except Exception] that re-raises a 404 can
    only return or raise that 404. *)
Lemma try_except_404 {A} (m : M A) detail w :
  (exists a w',
      try_except m (fun _ => raise (HTTPException 404 detail)) w = (Return a, w'))
  \/ (exists w',
         try_except m (fun _ => raise (HTTPException 404 detail)) w
         = (Raise (HTTPException 404 detail), w')).
Proof.
  unfold try_except, raise. destruct (m w) as [[a|ex] w']; eauto.
Qed.

(** [get_qr_code_metadata] and [check_qr_code] do not write. *)
Lemma get_qr_code_metadata_world code_id w :
  snd (get_qr_code_metadata eval code_id w) = w.
Proof.
  unfold get_qr_code_metadata, try_except, bind, lift, raise.
  rewrite blob_exists_run.
  destruct (faults w OpExists (code_id ++ ".metadata")); simpl;
    [|reflexivity|by destruct (storage w)].
  destruct (bool_decide _); simpl; [|reflexivity].
  rewrite download_blob_run.
  destruct (faults w OpDownload (code_id ++ ".metadata")); simpl;
    [|reflexivity..].
  destruct (blobs w !! (code_id ++ ".metadata")); simpl; [|reflexivity].
  destruct (eval _); simpl; [|reflexivity].
  by destruct (QRCodeMetadata.new _).
Qed.


(** An image that is not stored is never served. *)
Lemma get_qr_code_absent e code_id w :
  blobs w !! code_id = None ->
  get_qr_code eval e code_id w
  = (Raise (HTTPException 404 "QR code not found"), w).
Proof.
  intros Hb. unfold get_qr_code, try_except, bind, raise.
  rewrite blob_exists_run, Hb.
  destruct (faults w OpExists code_id); simpl;
    [reflexivity..|by destruct (storage w)].
Qed.

(** [delete_qr_code] returns only after it removed the image; the sidecar
    is gone as well when its existence probe answered. *)
Lemma delete_qr_code_returns code_id w w' :
  delete_qr_code code_id w = (Return tt, w') ->
  is_Some (blobs w !! code_id)
  /\ faults w' = faults w
  /\ blobs w' !! code_id = None
  /\ (faults w OpExists (sidecar code_id) = NoFault ->
      blobs w' !! sidecar code_id = None).
Proof.
  unfold delete_qr_code, try_except, bind, raise, ret.
  rewrite delete_blob_run. fold (sidecar code_id).
  destruct (faults w OpDelete code_id); [|discriminate..].
  destruct (blobs w !! code_id) as [b|] eqn:Hb; [|discriminate].
  rewrite blob_exists_run, faults_set_blobs, blobs_set_blobs, storage_set_blobs.
  destruct (faults w OpExists (sidecar code_id)) eqn:He.
  - destruct (delete code_id (blobs w) !! sidecar code_id) as [b'|] eqn:Hs;
      simpl.
    + rewrite delete_blob_run, faults_set_blobs, blobs_set_blobs, Hs.
      destruct (faults w OpDelete (sidecar code_id)); [|discriminate..].
      intros [= <-]. simpl. split; [eauto|]. split; [done|].
      split; [|intros _; apply lookup_delete_eq].
      rewrite lookup_delete. case_decide; [done|apply lookup_delete_eq].
    + intros [= <-]. simpl. split; [eauto|]. split; [done|].
      split; [apply lookup_delete_eq|done].
  - simpl. intros [= <-]. simpl. split; [eauto|]. split; [done|].
    split; [apply lookup_delete_eq|done].
  - destruct (storage w) eqn:Hst; simpl; [|discriminate].
    intros [= <-]. simpl. split; [eauto|]. split; [done|].
    split; [apply lookup_delete_eq|done].
Qed.

(** The image upload followed by the non-access upsert, shared by
    [create_qr_code] and [upload_qr_code]: both writes happen and the
    response is returned, or an exception other than [HTTPException] leaves
    the handler. *)
Lemma store_image_cases now code_id png data size w :
  let w1 := set_blobs (<[code_id := mk_blob png (Some "image/png")]> (blobs w)) w in
  let h :=
    (storage.upload_blob code_id png (Some "image/png") ;;
     update_metadata eval now (replace_png code_id) data size false ;;
     ret (QRCodeResponse.mk code_id (root_path ++ "/api/qrcodes/" ++ code_id))) in
  (faults w OpUpload code_id = NoFault
   /\ faults w OpUpload (sidecar code_id) = NoFault
   /\ h w = (Return (QRCodeResponse.mk code_id
                       (root_path ++ "/api/qrcodes/" ++ code_id)),
             upserted eval now (replace_png code_id) data size false w1))
  \/ (exists cls w',
         h w = (Raise (Exception cls), w')
         /\ (faults w OpUpload code_id <> NoFault
             \/ faults w OpUpload (sidecar code_id) <> NoFault)).
Proof.
  intros w1 h. unfold h, bind.
  destruct (faults w OpUpload code_id) eqn:Hi.
  - destruct (upload_blob_ok code_id png "image/png" w Hi ltac:(done))
      as [url ->].
    fold w1. rewrite update_metadata_run. fold (sidecar code_id).
    change (faults w1 OpUpload (sidecar code_id))
      with (faults w OpUpload (sidecar code_id)).
    destruct (faults w OpUpload (sidecar code_id)) eqn:Hs.
    + left. by repeat split.
    + right. eexists _, _. split; [reflexivity|]. right. congruence.
    + right. eexists _, _. split; [reflexivity|]. right. congruence.
  - rewrite upload_blob_fault by congruence. rewrite Hi.
    right. eexists _, _. split; [reflexivity|]. left. congruence.
  - rewrite upload_blob_fault by congruence. rewrite Hi.
    right. eexists _, _. split; [reflexivity|]. left. congruence.
Qed.

Lemma get_qr_code_shape e code_id w :
  (exists a w', get_qr_code eval e code_id w = (Return a, w'))
  \/ (exists w', get_qr_code eval e code_id w
                 = (Raise (HTTPException 404 "QR code not found"), w')).
Proof. apply try_except_404. Qed.

Lemma get_qr_code_metadata_shape code_id w :
  (exists a w', get_qr_code_metadata eval code_id w = (Return a, w'))
  \/ (exists w', get_qr_code_metadata eval code_id w
                 = (Raise (HTTPException 404 "QR code metadata not found"), w')).
Proof. apply try_except_404. Qed.

Lemma check_qr_code_shape code_id w :
  (exists a w', check_qr_code code_id w = (Return a, w'))
  \/ (exists w', check_qr_code code_id w
                 = (Raise (HTTPException 404 "QR code not found"), w')).
Proof. apply try_except_404. Qed.

Lemma delete_qr_code_shape code_id w :
  (exists a w', delete_qr_code code_id w = (Return a, w'))
  \/ (exists w', delete_qr_code code_id w
                 = (Raise (HTTPException 404 "QR code not found"), w')).
Proof. apply try_except_404. Qed.

(** A sidecar that is stored, readable and well-formed is served. *)
Lemma get_qr_code_metadata_found code_id w b v m :
  faults w OpExists (code_id ++ ".metadata") = NoFault ->
  faults w OpDownload (code_id ++ ".metadata") = NoFault ->
  blobs w !! (code_id ++ ".metadata") = Some b ->
  eval (body b) = Return v ->
  QRCodeMetadata.new v = Return m ->
  get_qr_code_metadata eval code_id w = (Return m, w).
Proof.
  intros He Hd Hb Hev Hm.
  unfold get_qr_code_metadata, try_except, bind, lift.
  rewrite blob_exists_run, He, Hb. simpl.
  rewrite download_blob_run, Hd, Hb, read_all_chunks, Hev. simpl.
  by rewrite Hm.
Qed.

(** After the image upload and the upsert, the image and its sidecar are
    both stored. *)
Lemma stored_both now code_id png data size w :
  let w1 := set_blobs (<[code_id := mk_blob png (Some "image/png")]> (blobs w)) w in
  let w' := upserted eval now (replace_png code_id) data size false w1 in
  is_Some (blobs w' !! code_id) /\ is_Some (blobs w' !! sidecar code_id).
Proof.
  intros w1 w'. unfold w', upserted, w1. rewrite !blobs_set_blobs.
  fold (sidecar code_id). split.
  - rewrite lookup_insert. case_decide; [eauto|].
    rewrite lookup_insert_eq. eauto.
  - rewrite lookup_insert_eq. eauto.
Qed.

End Cases.

(** ** Claims about the handlers *)

#[local] Arguments uuid_str : simpl never.
#[local] Arguments replace_png : simpl never.
#[local] Arguments repr : simpl never.
#[local] Arguments str : simpl never.




(** C7. A PUT whose file is not declared [image/png] is answered with 400
    and the storage is exactly as before: neither the image nor the sidecar
    is written. *)
Theorem upload_rejects_non_png
    eval render e code_id file x_qr_data x_qr_size w :
  UploadFile.content_type file <> Some "image/png" ->
  handle eval render e (PUT_qrcode code_id file x_qr_data x_qr_size) w
  = (mk_response 400 (Detail "Only PNG images are supported"), w).
Proof.
  intros Hct. unfold handle, respond, upload_qr_code.
  by rewrite bool_decide_eq_false_2.
Qed.

Lemma upload_rejects_non_png_witness :
  handle literal_eval Demo.render Demo.env0
    (PUT_qrcode "abc.png" Demo.gif (Some "hello") 300) Demo.with_abc
  = (mk_response 400 (Detail "Only PNG images are supported"), Demo.with_abc).
Proof.
  apply (upload_rejects_non_png literal_eval Demo.render Demo.env0 "abc.png"
           Demo.gif (Some "hello") 300 Demo.with_abc).
  vm_compute. discriminate.
Defined.

(** C10. When a GET of the image [code_id] succeeds although the sidecar was
    absent or did not evaluate, the sidecar now holds a fresh record with
    [data] the empty string, [size] 0, [access_count] 1 and [created_at]
    equal to [last_accessed] equal to the time of the access, in place of
    whatever was stored there. *)
Theorem get_recreates_missing_sidecar eval render e code_id w r w' :
  handle eval render e (GET_qrcode code_id) w = (r, w') ->
  status_code r = 200 ->
  blobs w !! sidecar code_id = None
  \/ (exists b ex, blobs w !! sidecar code_id = Some b
                   /\ eval (body b) = Raise ex) ->
  is_Some (blobs w !! code_id)
  /\ blobs w' !! sidecar code_id
     = Some (mk_blob
               (str (PDict [("code_id", PStr (replace_png code_id));
                             ("data", PStr "");
                             ("size", PInt 0);
                             ("created_at", PStr (isoformat (now e)));
                             ("last_accessed", PStr (isoformat (now e)));
                             ("access_count", PInt 1)]))
               (Some "application/json")).
Proof.
  intros Hrun Hst Hcase. unfold handle, respond in Hrun.
  destruct (get_qr_code_cases eval e code_id w)
    as [(b & He & Hsome & Hu & Hd & Hb1 & Hget)|[[Hget _]|(Hget & _)]];
    rewrite Hget in Hrun; injection Hrun as <- <-; try discriminate.
  split; [done|].
  unfold upserted. rewrite blobs_set_blobs. fold (sidecar code_id).
  rewrite lookup_insert_eq. do 3 f_equal.
  unfold merged, load. fold (sidecar code_id).
  destruct Hcase as [Hb|(b' & ex & Hb & Hev)].
  - rewrite Hb.
    by destruct (faults w OpExists (sidecar code_id)),
                (faults w OpDownload (sidecar code_id)).
  - rewrite Hb, Hev.
    by destruct (faults w OpExists (sidecar code_id)),
                (faults w OpDownload (sidecar code_id)).
Qed.

Lemma get_recreates_missing_sidecar_witness :
  is_Some (blobs Demo.with_corrupt_abc !! "abc.png")
  /\ blobs (snd (handle literal_eval Demo.render Demo.env1 (GET_qrcode "abc.png")
                   Demo.with_corrupt_abc)) !! sidecar "abc.png"
     = Some (mk_blob
               (str (PDict [("code_id", PStr (replace_png "abc.png"));
                             ("data", PStr "");
                             ("size", PInt 0);
                             ("created_at", PStr (isoformat (now Demo.env1)));
                             ("last_accessed", PStr (isoformat (now Demo.env1)));
                             ("access_count", PInt 1)]))
               (Some "application/json")).
Proof.
  apply (get_recreates_missing_sidecar literal_eval Demo.render Demo.env1
           "abc.png" Demo.with_corrupt_abc
           (fst (handle literal_eval Demo.render Demo.env1 (GET_qrcode "abc.png")
                   Demo.with_corrupt_abc))).
  - by destruct (handle _ _ _ _ _).
  - vm_compute. reflexivity.
  - right. exists (mk_blob "{'code_id': " (Some "application/json")).
    exists (Exception "SyntaxError"). split; vm_compute; reflexivity.
Defined.



(** C8, as stated, fails: a POST whose image upload fails is answered with
    500, since [create_qr_code] catches nothing. *)
Lemma create_answers_500_when_upload_fails :
  let w := set_faults Demo.uploads_fail Demo.empty in
  handle literal_eval Demo.render Demo.env0
    (POST_qrcodes (QRCodeRequest.mk "https://example.com" 200)) w
  = (mk_response 500 InternalServerError, w)
  /\ ~ In 500 [201; 200; 204; 400; 404].
Proof.
  split; [vm_compute; reflexivity|].
  simpl. intros H. repeat destruct H as [H|H]; try discriminate. done.
Qed.

(** C8, amended. The four handlers that wrap their body in [try/except]
    (GET image, GET metadata, HEAD, DELETE) answer 200 or 204 on success and
    404 on every failure, whatever the backend does. POST and PUT catch
    nothing: they answer 201 when rendering and both uploads succeed, PUT
    answers 400 for a file that is not [image/png], and a rendering failure
    or a failed upload leaves the handler as an exception, which the
    framework answers with 500. *)
Theorem status_codes eval render e r w :
  let s := status_code (fst (handle eval render e r w)) in
  match r with
  | POST_qrcodes body =>
      let code_id := uuid_str (uuid4 e) ++ ".png" in
      let drawn := render (QRCodeRequest.data body) (QRCodeRequest.size body) in
      (s = 201 /\ is_Some drawn /\ faults w OpUpload code_id = NoFault
       /\ faults w OpUpload (sidecar code_id) = NoFault)
      \/ (s = 500 /\ (drawn = None \/ faults w OpUpload code_id <> NoFault
                      \/ faults w OpUpload (sidecar code_id) <> NoFault))
  | PUT_qrcode code_id file _ _ =>
      (s = 400 /\ UploadFile.content_type file <> Some "image/png")
      \/ (UploadFile.content_type file = Some "image/png"
          /\ ((s = 201 /\ faults w OpUpload code_id = NoFault
               /\ faults w OpUpload (sidecar code_id) = NoFault)
              \/ (s = 500 /\ (faults w OpUpload code_id <> NoFault
                              \/ faults w OpUpload (sidecar code_id) <> NoFault))))
  | GET_qrcode _ | GET_qrcode_metadata _ | HEAD_qrcode _ => s = 200 \/ s = 404
  | DELETE_qrcode _ => s = 204 \/ s = 404
  end.
Proof.
  destruct r as [body|code_id file xd xs|code_id|code_id|code_id|code_id];
    cbn zeta; unfold handle, respond.
  - unfold create_qr_code, generate_qr_code.
    destruct (render _ _) as [png|] eqn:Hr.
    + rewrite bind_ret.
      destruct (store_image_cases eval (now e) (uuid_str (uuid4 e) ++ ".png") png
                  (PStr (QRCodeRequest.data body)) (QRCodeRequest.size body) w)
        as [(Hi & Hs & ->)|(cls & w' & -> & Hf)]; simpl.
      * left. eauto.
      * right. split; [done|]. by right.
    + right. split; [done|]. by left.
  - unfold upload_qr_code.
    destruct (decide (UploadFile.content_type file = Some "image/png")) as [Hct|Hct].
    + rewrite bool_decide_eq_true_2 by done. simpl. right. split; [done|].
      destruct (store_image_cases eval (now e) code_id (UploadFile.file file)
                  (match xd with Some s => PStr s | None => PNone end) xs w)
        as [(Hi & Hs & ->)|(cls & w' & -> & Hf)]; simpl.
      * left. eauto.
      * right. by split.
    + rewrite bool_decide_eq_false_2 by done. simpl. left. by split.
  - destruct (get_qr_code_shape eval e code_id w)
      as [(a & w' & ->)|(w' & ->)]; simpl; auto.
  - destruct (get_qr_code_metadata_shape eval code_id w)
      as [(a & w' & ->)|(w' & ->)]; simpl; auto.
  - destruct (check_qr_code_shape code_id w)
      as [(a & w' & ->)|(w' & ->)]; simpl; auto.
  - destruct (delete_qr_code_shape code_id w)
      as [(a & w' & ->)|(w' & ->)]; simpl; auto.
Qed.

(** C9, as stated, fails: the uploads of the two distinct ids [a.png] and
    [a] both complete, both images are stored, and they share the single
    sidecar [a.metadata], which still describes the first upload only. *)
Lemma two_images_one_sidecar :
  let '(r1, w1) :=
    handle literal_eval Demo.render Demo.env0
      (PUT_qrcode "a.png" Demo.png (Some "first") 300) Demo.empty in
  let '(r2, w2) :=
    handle literal_eval Demo.render Demo.env1
      (PUT_qrcode "a" Demo.png (Some "second") 200) w1 in
  "a.png" <> "a"
  /\ status_code r1 = 201 /\ status_code r2 = 201
  /\ is_Some (blobs w2 !! "a.png") /\ is_Some (blobs w2 !! "a")
  /\ sidecar "a.png" = sidecar "a"
  /\ size (blobs w2) = 3%nat
  /\ stored literal_eval w2 "a.metadata"
     = Some (new_metadata Demo.t0 "a" (PStr "first") 300).
Proof.
  vm_compute. repeat split; eauto; discriminate.
Qed.

(** C9, amended. After a completed create or upload (answered with 201) the
    image stored under [code_id] has a sidecar stored under the key
    [sidecar code_id]. Two ids get the same sidecar exactly when they are
    equal once every [".png"] is removed; in particular ids of the form
    stem + [".png"] whose stem has no dot, as every generated id is, have
    sidecars of their own. *)
Theorem completed_write_has_sidecar eval render e r w resp w' :
  handle eval render e r w = (resp, w') ->
  status_code resp = 201 ->
  (exists code_id url,
      payload resp = Created (QRCodeResponse.mk code_id url)
      /\ is_Some (blobs w' !! code_id)
      /\ is_Some (blobs w' !! sidecar code_id))
  /\ (forall c1 c2, sidecar c1 = sidecar c2 <-> replace_png c1 = replace_png c2)
  /\ (forall s1 s2,
         has_char "." s1 = false -> has_char "." s2 = false ->
         sidecar (s1 ++ ".png") = sidecar (s2 ++ ".png") -> s1 = s2).
Proof.
  intros Hrun Hst. split; [|split].
  - destruct r as [body|code_id file xd xs|code_id|code_id|code_id|code_id];
      unfold handle, respond in Hrun.
    + unfold create_qr_code, generate_qr_code in Hrun.
      destruct (render _ _) as [png|]; [|by injection Hrun as <- <-].
      rewrite bind_ret in Hrun.
      destruct (store_image_cases eval (now e) (uuid_str (uuid4 e) ++ ".png") png
                  (PStr (QRCodeRequest.data body)) (QRCodeRequest.size body) w)
        as [(_ & _ & Hh)|(cls & w2 & Hh & _)];
        rewrite Hh in Hrun; injection Hrun as <- <-; [|discriminate].
      eexists _, _. split; [reflexivity|]. apply stored_both.
    + unfold upload_qr_code in Hrun.
      destruct (negb _); [by injection Hrun as <- <-|].
      destruct (store_image_cases eval (now e) code_id (UploadFile.file file)
                  (match xd with Some s => PStr s | None => PNone end) xs w)
        as [(_ & _ & Hh)|(cls & w2 & Hh & _)];
        rewrite Hh in Hrun; injection Hrun as <- <-; [|discriminate].
      eexists _, _. split; [reflexivity|]. apply stored_both.
    + destruct (get_qr_code_shape eval e code_id w)
        as [(a & w2 & Hh)|(w2 & Hh)];
        rewrite Hh in Hrun; by injection Hrun as <- <-.
    + destruct (get_qr_code_metadata_shape eval code_id w)
        as [(a & w2 & Hh)|(w2 & Hh)];
        rewrite Hh in Hrun; by injection Hrun as <- <-.
    + destruct (check_qr_code_shape code_id w)
        as [(a & w2 & Hh)|(w2 & Hh)];
        rewrite Hh in Hrun; by injection Hrun as <- <-.
    + destruct (delete_qr_code_shape code_id w)
        as [(a & w2 & Hh)|(w2 & Hh)];
        rewrite Hh in Hrun; by injection Hrun as <- <-.
  - intros c1 c2. unfold sidecar. split; [apply append_inj_r|by intros ->].
  - intros s1 s2 H1 H2. unfold sidecar.
    rewrite !replace_png_stem by done. apply append_inj_r.
Qed.

Lemma completed_write_has_sidecar_witness :
  let out :=
    handle literal_eval Demo.render Demo.env0
      (PUT_qrcode "a.png" Demo.png (Some "first") 300) Demo.empty in
  (exists code_id url,
      payload (fst out) = Created (QRCodeResponse.mk code_id url)
      /\ is_Some (blobs (snd out) !! code_id)
      /\ is_Some (blobs (snd out) !! sidecar code_id))
  /\ (forall c1 c2, sidecar c1 = sidecar c2 <-> replace_png c1 = replace_png c2)
  /\ (forall s1 s2,
         has_char "." s1 = false -> has_char "." s2 = false ->
         sidecar (s1 ++ ".png") = sidecar (s2 ++ ".png") -> s1 = s2).
Proof.
  apply (completed_write_has_sidecar literal_eval Demo.render Demo.env0
           (PUT_qrcode "a.png" Demo.png (Some "first") 300) Demo.empty).
  - by destruct (handle _ _ _ _ _).
  - vm_compute. reflexivity.
Defined.

(** C5, as stated, fails: after a create and one GET of the image, the
    metadata route called with the returned [code_id] (which ends in
    [".png"]) looks for the key [code_id.metadata], which was never
    written, and answers 404. *)
Lemma metadata_under_returned_id_not_found :
  let '(r1, w1) :=
    handle literal_eval Demo.render Demo.env0
      (POST_qrcodes (QRCodeRequest.mk "https://example.com" 200)) Demo.empty in
  let code_id := "123e4567-e89b-42d3-a456-426614174000.png" in
  let '(r2, w2) :=
    handle literal_eval Demo.render Demo.env1 (GET_qrcode code_id) w1 in
  let '(r3, w3) :=
    handle literal_eval Demo.render Demo.env1 (GET_qrcode_metadata code_id) w2 in
  r1 = mk_response 201
         (Created (QRCodeResponse.mk code_id ("/api/qrcodes/" ++ code_id)))
  /\ status_code r2 = 200
  /\ r3 = mk_response 404 (Detail "QR code metadata not found").
Proof.
  vm_compute. repeat split; reflexivity.
Qed.

#[local] Arguments isoformat : simpl never.

Lemma replace_png_generated u : replace_png (uuid_str u ++ ".png") = uuid_str u.
Proof. apply replace_png_stem, uuid_str_no_dot. Qed.

Lemma image_key_not_sidecar id : id ++ ".metadata" <> id ++ ".png".
Proof. intros H. by apply (inj (String.append id)) in H. Qed.

(** C5, amended. On a backend without failures, for a request the renderer
    can draw and a fresh UUID: the POST is answered 201 with the id
    UUID + [".png"], a GET of that id is answered 200 with the image, and
    the metadata route called with the id stripped of [".png"] is answered
    200 with [access_count] 2 (the evaluator reading back the two records
    the handlers wrote). *)
Theorem create_get_then_metadata eval render e1 e2 e3 request png w :
  let id := uuid_str (uuid4 e1) in
  let code_id := id ++ ".png" in
  let data := QRCodeRequest.data request in
  let size := QRCodeRequest.size request in
  let created :=
    PDict [("code_id", PStr id); ("data", PStr data); ("size", PInt size);
           ("created_at", PStr (isoformat (now e1)));
           ("last_accessed", PStr (isoformat (now e1)));
           ("access_count", PInt 1)] in
  let accessed :=
    PDict [("code_id", PStr id); ("data", PStr data); ("size", PInt size);
           ("created_at", PStr (isoformat (now e1)));
           ("last_accessed", PStr (isoformat (now e2)));
           ("access_count", PInt 2)] in
  render data size = Some png ->
  (forall name, quiet w name) ->
  blobs w !! (id ++ ".metadata") = None ->
  datetime_ok (now e1) = true ->
  datetime_ok (now e2) = true ->
  eval (str created) = Return created ->
  eval (str accessed) = Return accessed ->
  let '(r1, w1) := handle eval render e1 (POST_qrcodes request) w in
  let '(r2, w2) := handle eval render e2 (GET_qrcode code_id) w1 in
  let '(r3, w3) :=
    handle eval render e3 (GET_qrcode_metadata (replace_png code_id)) w2 in
  r1 = mk_response 201
         (Created (QRCodeResponse.mk code_id ("/api/qrcodes/" ++ code_id)))
  /\ r2 = mk_response 200 (Image (chunks (chunk w) png))
  /\ r3 = mk_response 200
            (Metadata (QRCodeMetadata.mk id data size (now e1) (now e2) 2)).
Proof.
  intros id code_id data size created accessed Hr Hq Hfresh Ht1 Ht2 Hc Ha.
  (* the create *)
  unfold handle at 1, respond, create_qr_code, generate_qr_code.
  fold data size. rewrite Hr, bind_ret. fold id code_id.
  destruct (store_image_cases eval (now e1) code_id png (PStr data) size w)
    as [(_ & _ & ->)|(cls & w' & _ & [Hf|Hf])];
    [|exfalso; apply Hf, Hq..].
  set (w0 := set_blobs (<[code_id := mk_blob png (Some "image/png")]> (blobs w)) w).
  set (wA := upserted eval (now e1) (replace_png code_id) (PStr data) size false w0).
  assert (Hstrip : replace_png code_id = id) by apply replace_png_generated.
  assert (HmA : merged eval (now e1) id (PStr data) size false w0 = created).
  { unfold merged, load, w0. rewrite blobs_set_blobs, faults_set_blobs.
    rewrite lookup_insert_ne by (symmetry; apply image_key_not_sidecar).
    rewrite Hfresh. by rewrite !Hq. }
  assert (HA_side : blobs wA !! (id ++ ".metadata")
                    = Some (mk_blob (str created) (Some "application/json"))).
  { unfold wA, upserted. rewrite blobs_set_blobs, Hstrip, HmA.
    apply lookup_insert_eq. }
  assert (HA_img : blobs wA !! code_id = Some (mk_blob png (Some "image/png"))).
  { unfold wA, upserted. rewrite blobs_set_blobs, Hstrip.
    rewrite lookup_insert_ne by apply image_key_not_sidecar.
    unfold w0. rewrite blobs_set_blobs. apply lookup_insert_eq. }
  assert (HqA : forall name, quiet wA name) by (intros name o; apply Hq).
  (* the access *)
  unfold handle at 1, respond.
  destruct (get_qr_code_cases eval e2 code_id wA)
    as [(b & _ & _ & _ & _ & Hb & ->)|[[_ Hcase]|(_ & _ & Hd)]];
    [|exfalso; destruct Hcase as [H|[H|H]];
        [apply H, HqA|congruence|apply H, HqA]
     |exfalso; apply Hd, HqA].
  set (wB := upserted eval (now e2) (replace_png code_id) (PStr "") 0 true wA)
    in *.
  assert (HmB : merged eval (now e2) id (PStr "") 0 true wA = accessed).
  { unfold merged, load. rewrite !HqA, HA_side. simpl. by rewrite Hc. }
  assert (HB_side : blobs wB !! (id ++ ".metadata")
                    = Some (mk_blob (str accessed) (Some "application/json"))).
  { unfold wB, upserted. rewrite blobs_set_blobs, Hstrip, HmB.
    apply lookup_insert_eq. }
  assert (Hbimg : b = mk_blob png (Some "image/png")).
  { unfold wB, upserted in Hb. rewrite blobs_set_blobs, Hstrip in Hb.
    rewrite lookup_insert_ne in Hb by apply image_key_not_sidecar.
    congruence. }
  subst b.
  (* the metadata fetch *)
  unfold handle, respond. rewrite Hstrip.
  rewrite (get_qr_code_metadata_found eval id wB _ accessed
             (QRCodeMetadata.mk id data size (now e1) (now e2) 2)
             (HqA _ _) (HqA _ _) HB_side Ha).
  - done.
  - unfold QRCodeMetadata.new, QRCodeMetadata.str_field,
      QRCodeMetadata.int_field, QRCodeMetadata.datetime_field. simpl.
    by rewrite !fromisoformat_isoformat.
Qed.

Lemma create_get_then_metadata_witness :
  let request := QRCodeRequest.mk "https://example.com" 200 in
  let id := uuid_str (uuid4 Demo.env0) in
  let code_id := id ++ ".png" in
  let '(r1, w1) :=
    handle literal_eval Demo.render Demo.env0 (POST_qrcodes request) Demo.empty in
  let '(r2, w2) :=
    handle literal_eval Demo.render Demo.env1 (GET_qrcode code_id) w1 in
  let '(r3, w3) :=
    handle literal_eval Demo.render Demo.env1
      (GET_qrcode_metadata (replace_png code_id)) w2 in
  r1 = mk_response 201
         (Created (QRCodeResponse.mk code_id ("/api/qrcodes/" ++ code_id)))
  /\ r2 = mk_response 200 (Image (chunks (chunk Demo.empty) "PNG"))
  /\ r3 = mk_response 200
            (Metadata (QRCodeMetadata.mk id "https://example.com" 200
                         Demo.t0 Demo.t1 2)).
Proof.
  apply (create_get_then_metadata literal_eval Demo.render Demo.env0 Demo.env1
           Demo.env1 (QRCodeRequest.mk "https://example.com" 200) "PNG"
           Demo.empty).
  - reflexivity.
  - intros name o. reflexivity.
  - vm_compute. reflexivity.
  - vm_compute. reflexivity.
  - vm_compute. reflexivity.
  - vm_compute. reflexivity.
  - vm_compute. reflexivity.
Defined.

(** * Further properties *)

(** ** The providers *)

(** X1. The existence probe of the Azure provider never raises: it answers
    [True] exactly when the object is stored and the request succeeded, and
    [False] for a missing object as well as for every failure. *)
Theorem azure_blob_exists_never_raises self name w :
  exists found,
    AzureBlob.blob_exists self name w = (Return found, w)
    /\ (found = true <->
        is_Some (blobs w !! name) /\ faults w OpExists name = NoFault).
Proof.
  unfold AzureBlob.blob_exists, try_except, stat_object, get_world, bind, ret,
    raise.
  destruct (faults w OpExists name) eqn:Hf.
  - destruct (blobs w !! name) as [b|] eqn:Hb; eexists; (split; [reflexivity|]).
    + split; eauto.
    + split; [done|]. by intros [[? ?] _].
  - eexists. split; [reflexivity|]. split; [done|]. by intros [_ ?].
  - eexists. split; [reflexivity|]. split; [done|]. by intros [_ ?].
Qed.

(** X2. The existence probe of the MinIO provider raises exactly when the
    request fails with an exception other than [S3Error]; otherwise it
    answers [True] exactly when the object is stored and the request
    succeeded, an [S3Error] reading as [False]. *)
Theorem minio_blob_exists_cases self name w :
  (faults w OpExists name = TransportError /\
   MinioStorage.blob_exists self name w
   = (Raise (Exception "ConnectionError"), w))
  \/ (faults w OpExists name <> TransportError /\
      exists found,
        MinioStorage.blob_exists self name w = (Return found, w)
        /\ (found = true <->
            is_Some (blobs w !! name) /\ faults w OpExists name = NoFault)).
Proof.
  unfold MinioStorage.blob_exists, try_except_class, stat_object, get_world,
    bind, ret, raise.
  destruct (faults w OpExists name) eqn:Hf.
  - right. split; [done|].
    destruct (blobs w !! name) as [b|] eqn:Hb; eexists; (split; [reflexivity|]).
    + split; eauto.
    + split; [done|]. by intros [[? ?] _].
  - right. split; [done|]. eexists. split; [reflexivity|].
    split; [done|]. by intros [_ ?].
  - left. by split.
Qed.

(** An upload that succeeds stores exactly the bytes it was given. *)
Lemma upload_blob_stores name data ct w :
  faults w OpUpload name = NoFault ->
  exists url ct',
    storage.upload_blob name data ct w
    = (Return url, set_blobs (<[name := mk_blob data ct']> (blobs w)) w).
Proof.
  intros Hf.
  unfold storage.upload_blob, get_world, bind.
  destruct (storage w); simpl;
    unfold AzureBlob.upload_blob, MinioStorage.upload_blob, put_object,
      get_world, bind, ret, put_blobs;
    rewrite Hf; eauto.
Qed.

(** X3. Upload and download are a round trip with both providers: after an
    upload that succeeds, a download that succeeds streams chunks whose
    concatenation is exactly the uploaded bytes, whatever the chunk length
    and the content type. *)
Theorem upload_download_round_trip name data ct w :
  faults w OpUpload name = NoFault ->
  exists url w',
    storage.upload_blob name data ct w = (Return url, w')
    /\ forall f,
         f OpDownload name = NoFault ->
         exists stream,
           storage.download_blob name (set_faults f w')
           = (Return stream, set_faults f w')
           /\ read_all stream = data.
Proof.
  intros Hf.
  destruct (upload_blob_stores name data ct w Hf) as (url & ct' & ->).
  eexists _, _. split; [reflexivity|].
  intros f Hd. rewrite download_blob_run. simpl. rewrite Hd.
  rewrite lookup_insert_eq. eexists. split; [reflexivity|].
  apply read_all_chunks.
Qed.

Lemma upload_download_round_trip_witness :
  exists url w',
    storage.upload_blob "abc.png" "PNG bytes" (Some "image/png") Demo.empty
    = (Return url, w')
    /\ forall f,
         f OpDownload "abc.png" = NoFault ->
         exists stream,
           storage.download_blob "abc.png" (set_faults f w')
           = (Return stream, set_faults f w')
           /\ read_all stream = "PNG bytes".
Proof.
  apply (upload_download_round_trip "abc.png" "PNG bytes" (Some "image/png")
           Demo.empty).
  reflexivity.
Defined.

(** X4. An upload overwrites: of two successful uploads under one name the
    second is what is stored, and no other object is touched by either. *)
Theorem upload_overwrites name data1 ct1 data2 ct2 w :
  faults w OpUpload name = NoFault ->
  let w1 := snd (storage.upload_blob name data1 ct1 w) in
  let w2 := snd (storage.upload_blob name data2 ct2 w1) in
  body <$> blobs w2 !! name = Some data2
  /\ blobs w2 = blobs (snd (storage.upload_blob name data2 ct2 w))
  /\ forall other, other <> name -> blobs w2 !! other = blobs w !! other.
Proof.
  intros Hf w1 w2. unfold w2, w1.
  destruct (upload_blob_stores name data1 ct1 w Hf) as (u1 & c1 & ->). simpl.
  destruct (upload_blob_stores name data2 ct2
              (set_blobs (<[name := mk_blob data1 c1]> (blobs w)) w) Hf)
    as (u2 & c2 & H2).
  destruct (upload_blob_stores name data2 ct2 w Hf) as (u3 & c3 & H3).
  assert (c2 = c3) as ->.
  { revert H2 H3.
    unfold storage.upload_blob, get_world, bind.
    destruct (storage w) eqn:Hs; simpl; rewrite Hs;
      unfold AzureBlob.upload_blob, MinioStorage.upload_blob, put_object,
        get_world, bind, ret, put_blobs; simpl; rewrite Hf;
      intros [= _ Ha] [= _ Hb];
      apply (f_equal (fun m : gmap string blob => m !! name)) in Ha, Hb;
      rewrite !lookup_insert_eq in Ha, Hb; congruence. }
  rewrite H2, H3. simpl. split; [by rewrite lookup_insert_eq|].
  split; [by rewrite insert_insert_eq|].
  intros other Hne. by rewrite !lookup_insert_ne.
Qed.

Lemma upload_overwrites_witness :
  let w1 := snd (storage.upload_blob "a" "one" None Demo.with_abc) in
  let w2 := snd (storage.upload_blob "a" "two" (Some "text/plain") w1) in
  body <$> blobs w2 !! "a" = Some "two"
  /\ blobs w2
     = blobs (snd (storage.upload_blob "a" "two" (Some "text/plain") Demo.with_abc))
  /\ forall other, other <> "a" -> blobs w2 !! other = blobs Demo.with_abc !! other.
Proof.
  apply (upload_overwrites "a" "one" None "two" (Some "text/plain") Demo.with_abc).
  reflexivity.
Defined.

(** X5. Deleting what was just uploaded: after a successful upload and a
    successful delete of the same name the object is gone, no other object
    is touched, and the container is exactly as before when the name was
    new. *)
Theorem delete_after_upload name data ct w :
  faults w OpUpload name = NoFault ->
  faults w OpDelete name = NoFault ->
  let w1 := snd (storage.upload_blob name data ct w) in
  exists w2,
    storage.delete_blob name w1 = (Return tt, w2)
    /\ blobs w2 !! name = None
    /\ (forall other, other <> name -> blobs w2 !! other = blobs w !! other)
    /\ (blobs w !! name = None -> blobs w2 = blobs w).
Proof.
  intros Hu Hd w1. unfold w1.
  destruct (upload_blob_stores name data ct w Hu) as (url & ct' & ->). simpl.
  rewrite delete_blob_run. simpl. rewrite Hd, lookup_insert_eq.
  eexists. split; [reflexivity|]. simpl.
  split; [apply lookup_delete_eq|]. split.
  - intros other Hne. by rewrite lookup_delete_ne, lookup_insert_ne.
  - intros Hnew. by apply delete_insert_id.
Qed.

Lemma delete_after_upload_witness :
  let w1 := snd (storage.upload_blob "a" "one" None Demo.with_abc) in
  exists w2,
    storage.delete_blob "a" w1 = (Return tt, w2)
    /\ blobs w2 !! "a" = None
    /\ (forall other, other <> "a" -> blobs w2 !! other = blobs Demo.with_abc !! other)
    /\ (blobs Demo.with_abc !! "a" = None -> blobs w2 = blobs Demo.with_abc).
Proof.
  apply (delete_after_upload "a" "one" None Demo.with_abc); reflexivity.
Defined.

(** X6. The URL the MinIO provider resolves for a blob is the protocol of
    the [secure] flag, the endpoint, the bucket and the blob name, so two
    blobs of one provider have the same URL only if they have the same
    name. *)
Theorem minio_blob_url_injective self name1 name2 :
  MinioStorage.get_blob_url self name1 = MinioStorage.get_blob_url self name2 ->
  name1 = name2.
Proof.
  unfold MinioStorage.get_blob_url. intros H.
  repeat apply (inj (String.append _)) in H. done.
Qed.

Lemma minio_blob_url_injective_witness : "abc.png" = "abc.png".
Proof.
  apply (minio_blob_url_injective (mk_minio "qrcodes" "localhost:9000" false)
           "abc.png" "abc.png").
  reflexivity.
Defined.

(** ** The upsert *)




(** ** The handlers *)

(** X9. HEAD answers 200 exactly when the object is stored and the
    existence probe succeeds, and 404 in every other case (a failed probe
    included); it never writes. *)
Theorem head_reports_existence eval render e code_id w :
  snd (handle eval render e (HEAD_qrcode code_id) w) = w
  /\ (is_Some (blobs w !! code_id) /\ faults w OpExists code_id = NoFault ->
      fst (handle eval render e (HEAD_qrcode code_id) w) = mk_response 200 Empty)
  /\ (blobs w !! code_id = None \/ faults w OpExists code_id <> NoFault ->
      fst (handle eval render e (HEAD_qrcode code_id) w)
      = mk_response 404 (Detail "QR code not found")).
Proof.
  unfold handle, respond, check_qr_code, try_except, raise, ret.
  unfold bind at 1 2 3. rewrite blob_exists_run.
  destruct (faults w OpExists code_id) eqn:Hf.
  - destruct (blobs w !! code_id) as [b|] eqn:Hb; simpl.
    + split; [done|]. split; [done|]. intros [?|?]; done.
    + split; [done|]. split; [|done]. by intros [[? ?] _].
  - simpl. split; [done|]. split; [|done]. by intros [_ ?].
  - destruct (storage w); simpl; (split; [done|]); (split; [|done]);
      by intros [_ ?].
Qed.

(** The metadata route, in one equation: it validates what the sidecar
    evaluates to, every failure on the way reads as 404, the world is as
    before. *)
Lemma get_qr_code_metadata_run eval code_id w :
  get_qr_code_metadata eval code_id w
  = (match load eval w (code_id ++ ".metadata") with
     | Return v =>
         match QRCodeMetadata.new v with
         | Return m => Return m
         | Raise _ => Raise (HTTPException 404 "QR code metadata not found")
         end
     | Raise _ => Raise (HTTPException 404 "QR code metadata not found")
     end, w).
Proof.
  unfold get_qr_code_metadata, load, try_except, lift, raise, bind.
  rewrite blob_exists_run.
  destruct (faults w OpExists (code_id ++ ".metadata")); simpl;
    [|reflexivity|by destruct (storage w)].
  destruct (blobs w !! (code_id ++ ".metadata")) as [b|] eqn:Hb; simpl.
  - rewrite download_blob_run, Hb.
    destruct (faults w OpDownload (code_id ++ ".metadata")); simpl;
      [|reflexivity..].
    rewrite read_all_chunks.
    destruct (eval (body b)) as [v|]; simpl; [|reflexivity].
    by destruct (QRCodeMetadata.new v).
  - by destruct (faults w OpDownload (code_id ++ ".metadata")).
Qed.


(** X11. A GET of an image that is not stored is answered with 404 and
    writes nothing, whatever the backend does: no sidecar is created for an
    image that does not exist. *)
Theorem get_missing_writes_nothing eval render e code_id w :
  blobs w !! code_id = None ->
  handle eval render e (GET_qrcode code_id) w
  = (mk_response 404 (Detail "QR code not found"), w).
Proof.
  intros Hb. unfold handle, respond. by rewrite get_qr_code_absent.
Qed.

Lemma get_missing_writes_nothing_witness :
  handle literal_eval Demo.render Demo.env1 (GET_qrcode "nothing.png")
    (set_faults Demo.uploads_fail Demo.with_abc)
  = (mk_response 404 (Detail "QR code not found"),
     set_faults Demo.uploads_fail Demo.with_abc).
Proof.
  apply (get_missing_writes_nothing literal_eval Demo.render Demo.env1
           "nothing.png" (set_faults Demo.uploads_fail Demo.with_abc)).
  vm_compute. reflexivity.
Defined.

(** The metadata write of a handler leaves the image it belongs to alone. *)
Lemma upserted_image eval now code_id data size is_access w :
  blobs (upserted eval now (replace_png code_id) data size is_access w) !! code_id
  = blobs w !! code_id.
Proof.
  unfold upserted. rewrite blobs_set_blobs. fold (sidecar code_id).
  apply lookup_insert_ne, sidecar_not_image.
Qed.

Lemma upserted_sidecar eval now code_id data size is_access w :
  blobs (upserted eval now (replace_png code_id) data size is_access w)
  !! sidecar code_id
  = Some (mk_blob (str (merged eval now (replace_png code_id) data size
                          is_access w)) (Some "application/json")).
Proof. unfold upserted. rewrite blobs_set_blobs. apply lookup_insert_eq. Qed.

(** The upload handler when the file is a PNG and both uploads succeed. *)
Lemma upload_qr_code_run eval e code_id file xd xs w :
  UploadFile.content_type file = Some "image/png" ->
  faults w OpUpload code_id = NoFault ->
  faults w OpUpload (sidecar code_id) = NoFault ->
  upload_qr_code eval e code_id file xd xs w
  = (Return (QRCodeResponse.mk code_id (root_path ++ "/api/qrcodes/" ++ code_id)),
     upserted eval (now e) (replace_png code_id)
       (match xd with Some s => PStr s | None => PNone end) xs false
       (set_blobs (<[code_id := mk_blob (UploadFile.file file)
                                  (Some "image/png")]> (blobs w)) w)).
Proof.
  intros Hct Hi Hs. unfold upload_qr_code.
  rewrite bool_decide_eq_true_2 by done. simpl.
  destruct (store_image_cases eval (now e) code_id (UploadFile.file file)
              (match xd with Some s => PStr s | None => PNone end) xs w)
    as [(_ & _ & ->)|(cls & w' & _ & [H|H])]; done.
Qed.

(** The GET handler when the image is stored and its calls and the metadata
    upload succeed. *)
Lemma get_qr_code_run eval e code_id w b :
  blobs w !! code_id = Some b ->
  faults w OpExists code_id = NoFault ->
  faults w OpUpload (sidecar code_id) = NoFault ->
  faults w OpDownload code_id = NoFault ->
  get_qr_code eval e code_id w
  = (Return (chunks (chunk w) (body b)),
     upserted eval (now e) (replace_png code_id) (PStr "") 0 true w).
Proof.
  intros Hb He Hu Hd.
  destruct (get_qr_code_cases eval e code_id w)
    as [(b' & _ & _ & _ & _ & Hb' & ->)|[[_ Hc]|(_ & _ & Hc)]].
  - rewrite upserted_image, Hb in Hb'. by injection Hb' as <-.
  - destruct Hc as [?|[?|?]]; congruence.
  - done.
Qed.

(** X12. A PUT with a PNG file whose two uploads succeed is answered with
    201 and stores exactly the bytes of the file under [code_id]: the
    metadata write that follows never lands on the image, and a later GET
    (its own calls and its metadata upload succeeding) streams those bytes
    back. *)
Theorem put_then_get_returns_file eval render e e' code_id file xd xs w :
  UploadFile.content_type file = Some "image/png" ->
  faults w OpUpload code_id = NoFault ->
  faults w OpUpload (sidecar code_id) = NoFault ->
  exists w',
    handle eval render e (PUT_qrcode code_id file xd xs) w
    = (mk_response 201
         (Created (QRCodeResponse.mk code_id ("/api/qrcodes/" ++ code_id))), w')
    /\ blobs w' !! code_id
       = Some (mk_blob (UploadFile.file file) (Some "image/png"))
    /\ forall f,
         f OpExists code_id = NoFault -> f OpDownload code_id = NoFault ->
         f OpUpload (sidecar code_id) = NoFault ->
         exists stream w'',
           handle eval render e' (GET_qrcode code_id) (set_faults f w')
           = (mk_response 200 (Image stream), w'')
           /\ read_all stream = UploadFile.file file.
Proof.
  intros Hct Hi Hs. unfold handle, respond.
  rewrite upload_qr_code_run by done.
  eexists. split; [reflexivity|].
  assert (Himg : forall A B C D X,
             blobs (upserted eval A (replace_png code_id) B C D
                      (set_blobs (<[code_id := X]> (blobs w)) w)) !! code_id
             = Some X).
  { intros. rewrite upserted_image, blobs_set_blobs. apply lookup_insert_eq. }
  split; [apply Himg|].
  intros f He Hd Hu.
  erewrite get_qr_code_run; [|apply Himg|done..].
  eexists _, _. split; [reflexivity|]. apply read_all_chunks.
Qed.

Lemma put_then_get_returns_file_witness :
  exists w',
    handle literal_eval Demo.render Demo.env0
      (PUT_qrcode "abc.png" Demo.png None 300) Demo.with_abc
    = (mk_response 201
         (Created (QRCodeResponse.mk "abc.png" ("/api/qrcodes/" ++ "abc.png"))), w')
    /\ blobs w' !! "abc.png"
       = Some (mk_blob (UploadFile.file Demo.png) (Some "image/png"))
    /\ forall f,
         f OpExists "abc.png" = NoFault -> f OpDownload "abc.png" = NoFault ->
         f OpUpload (sidecar "abc.png") = NoFault ->
         exists stream w'',
           handle literal_eval Demo.render Demo.env1 (GET_qrcode "abc.png")
             (set_faults f w')
           = (mk_response 200 (Image stream), w'')
           /\ read_all stream = UploadFile.file Demo.png.
Proof.
  apply (put_then_get_returns_file literal_eval Demo.render Demo.env0 Demo.env1
           "abc.png" Demo.png None 300 Demo.with_abc); reflexivity.
Defined.

(** X13. Uploading again under an id whose sidecar evaluates to a record
    replaces the image and keeps the record: the hints of the headers
    [X-Qr-Data] and [X-Qr-Size] of the second upload are not recorded. *)
Theorem reupload_keeps_record eval render e code_id file xd xs w b v :
  UploadFile.content_type file = Some "image/png" ->
  faults w OpUpload code_id = NoFault ->
  quiet w (sidecar code_id) ->
  blobs w !! sidecar code_id = Some b ->
  eval (body b) = Return v ->
  eval (str v) = Return v ->
  let w' := snd (handle eval render e (PUT_qrcode code_id file xd xs) w) in
  status_code (fst (handle eval render e (PUT_qrcode code_id file xd xs) w)) = 201
  /\ blobs w' !! code_id = Some (mk_blob (UploadFile.file file) (Some "image/png"))
  /\ stored eval w' (sidecar code_id) = Some v.
Proof.
  intros Hct Hi Hq Hb Hv Hrt w'. unfold w', handle, respond.
  rewrite upload_qr_code_run by (done || apply Hq). cbn [fst snd status_code].
  split; [done|]. split.
  - rewrite upserted_image, blobs_set_blobs. apply lookup_insert_eq.
  - unfold stored. rewrite upserted_sidecar.
    assert (Hm : merged eval (now e) (replace_png code_id)
                   (match xd with Some s => PStr s | None => PNone end) xs false
                   (set_blobs (<[code_id := mk_blob (UploadFile.file file)
                                              (Some "image/png")]> (blobs w)) w)
                 = v).
    { unfold merged, load. fold (sidecar code_id).
      rewrite !faults_set_blobs, blobs_set_blobs, !Hq.
      rewrite lookup_insert_ne by (intros H; symmetry in H;
                                   by apply sidecar_not_image in H).
      by rewrite Hb, Hv. }
    rewrite Hm. simpl. by rewrite Hrt.
Qed.

Lemma reupload_keeps_record_witness :
  let w' :=
    snd (handle literal_eval Demo.render Demo.env1
           (PUT_qrcode "abc.png" Demo.png (Some "other") 999) Demo.with_abc) in
  status_code
    (fst (handle literal_eval Demo.render Demo.env1
            (PUT_qrcode "abc.png" Demo.png (Some "other") 999) Demo.with_abc))
  = 201
  /\ blobs w' !! "abc.png"
     = Some (mk_blob (UploadFile.file Demo.png) (Some "image/png"))
  /\ stored literal_eval w' (sidecar "abc.png") = Some (PDict Demo.record_abc).
Proof.
  apply (reupload_keeps_record literal_eval Demo.render Demo.env1 "abc.png"
           Demo.png (Some "other") 999 Demo.with_abc Demo.sidecar_abc
           (PDict Demo.record_abc)).
  - reflexivity.
  - reflexivity.
  - intros o. reflexivity.
  - vm_compute. reflexivity.
  - vm_compute. reflexivity.
  - vm_compute. reflexivity.
Defined.

(** The record a first upload under [code_id] files. *)
Lemma merged_first_upload eval now code_id data size w X :
  blobs w !! sidecar code_id = None ->
  merged eval now (replace_png code_id) data size false
    (set_blobs (<[code_id := X]> (blobs w)) w)
  = new_metadata now (replace_png code_id) data size.
Proof.
  intros Hb. unfold merged, load. fold (sidecar code_id).
  rewrite blobs_set_blobs, !faults_set_blobs.
  rewrite lookup_insert_ne by (intros H; symmetry in H;
                               by apply sidecar_not_image in H).
  rewrite Hb.
  by destruct (faults w OpExists (sidecar code_id)),
              (faults w OpDownload (sidecar code_id)).
Qed.

(** X14. An upload without the header [X-Qr-Data] records [None] as the
    data, which the response model of the metadata route does not accept:
    after such a first upload the sidecar is stored, and the metadata route
    still answers 404, whatever the backend does. *)
Theorem upload_without_data_hides_metadata eval render e e' code_id file xs w :
  UploadFile.content_type file = Some "image/png" ->
  faults w OpUpload code_id = NoFault ->
  faults w OpUpload (sidecar code_id) = NoFault ->
  blobs w !! sidecar code_id = None ->
  eval (str (new_metadata (now e) (replace_png code_id) PNone xs))
  = Return (new_metadata (now e) (replace_png code_id) PNone xs) ->
  let out := handle eval render e (PUT_qrcode code_id file None xs) w in
  status_code (fst out) = 201
  /\ stored eval (snd out) (sidecar code_id)
     = Some (new_metadata (now e) (replace_png code_id) PNone xs)
  /\ forall f,
       handle eval render e' (GET_qrcode_metadata (replace_png code_id))
         (set_faults f (snd out))
       = (mk_response 404 (Detail "QR code metadata not found"),
          set_faults f (snd out)).
Proof.
  intros Hct Hi Hs Hb Hrt out. unfold out, handle, respond.
  rewrite upload_qr_code_run by done. cbn [fst snd status_code].
  split; [done|].
  assert (Hside :
    blobs (upserted eval (now e) (replace_png code_id) PNone xs false
             (set_blobs (<[code_id := mk_blob (UploadFile.file file)
                                        (Some "image/png")]> (blobs w)) w))
    !! sidecar code_id
    = Some (mk_blob (str (new_metadata (now e) (replace_png code_id) PNone xs))
              (Some "application/json"))).
  { by rewrite upserted_sidecar, merged_first_upload. }
  split.
  - unfold stored. rewrite Hside. simpl. by rewrite Hrt.
  - intros f. rewrite get_qr_code_metadata_run. unfold load.
    fold (sidecar code_id). cbn [blobs faults set_faults]. rewrite Hside.
    cbn [body]. rewrite Hrt.
    by destruct (f OpExists (sidecar code_id)),
                (f OpDownload (sidecar code_id)).
Qed.

Lemma upload_without_data_hides_metadata_witness :
  let out :=
    handle literal_eval Demo.render Demo.env0
      (PUT_qrcode "logo.png" Demo.png None 300) Demo.empty in
  status_code (fst out) = 201
  /\ stored literal_eval (snd out) (sidecar "logo.png")
     = Some (new_metadata (now Demo.env0) (replace_png "logo.png") PNone 300)
  /\ forall f,
       handle literal_eval Demo.render Demo.env1
         (GET_qrcode_metadata (replace_png "logo.png")) (set_faults f (snd out))
       = (mk_response 404 (Detail "QR code metadata not found"),
          set_faults f (snd out)).
Proof.
  apply (upload_without_data_hides_metadata literal_eval Demo.render Demo.env0
           Demo.env1 "logo.png" Demo.png 300 Demo.empty).
  - reflexivity.
  - reflexivity.
  - reflexivity.
  - vm_compute. reflexivity.
  - vm_compute. reflexivity.
Defined.

(** X15. A first upload that sends [X-Qr-Data] is visible on the metadata
    route under the id without [".png"]: on a backend without failures the
    route answers 200 with the data and size of the headers, both
    timestamps equal to the time of the upload, and [access_count] 1. *)
Theorem upload_with_data_serves_metadata
    eval render e e' code_id file data xs w :
  UploadFile.content_type file = Some "image/png" ->
  (forall name, quiet w name) ->
  blobs w !! sidecar code_id = None ->
  datetime_ok (now e) = true ->
  eval (str (new_metadata (now e) (replace_png code_id) (PStr data) xs))
  = Return (new_metadata (now e) (replace_png code_id) (PStr data) xs) ->
  let out := handle eval render e (PUT_qrcode code_id file (Some data) xs) w in
  status_code (fst out) = 201
  /\ fst (handle eval render e' (GET_qrcode_metadata (replace_png code_id))
            (snd out))
     = mk_response 200
         (Metadata (QRCodeMetadata.mk (replace_png code_id) data xs
                      (now e) (now e) 1)).
Proof.
  intros Hct Hq Hb Ht Hrt out. unfold out, handle, respond.
  rewrite upload_qr_code_run by (done || apply Hq). cbn [fst snd status_code].
  split; [done|].
  rewrite get_qr_code_metadata_run. unfold load. fold (sidecar code_id).
  rewrite upserted_sidecar, merged_first_upload by done.
  change (faults (upserted _ _ _ _ _ _ _)) with (faults w).
  rewrite !Hq. cbn [body]. rewrite Hrt.
  unfold QRCodeMetadata.new, QRCodeMetadata.str_field,
    QRCodeMetadata.int_field, QRCodeMetadata.datetime_field. simpl.
  by rewrite !fromisoformat_isoformat.
Qed.

Lemma upload_with_data_serves_metadata_witness :
  let out :=
    handle literal_eval Demo.render Demo.env0
      (PUT_qrcode "logo.png" Demo.png (Some "https://example.com") 300)
      Demo.empty in
  status_code (fst out) = 201
  /\ fst (handle literal_eval Demo.render Demo.env1
            (GET_qrcode_metadata (replace_png "logo.png")) (snd out))
     = mk_response 200
         (Metadata (QRCodeMetadata.mk (replace_png "logo.png")
                      "https://example.com" 300
                      (now Demo.env0) (now Demo.env0) 1)).
Proof.
  apply (upload_with_data_serves_metadata literal_eval Demo.render Demo.env0
           Demo.env1 "logo.png" Demo.png "https://example.com" 300 Demo.empty).
  - reflexivity.
  - intros name o. reflexivity.
  - vm_compute. reflexivity.
  - vm_compute. reflexivity.
  - vm_compute. reflexivity.
Defined.

(** The three worlds a DELETE can leave: nothing removed, the image
    removed, the image and its sidecar removed. *)
Lemma delete_qr_code_worlds code_id w :
  let w' := snd (delete_qr_code code_id w) in
  w' = w
  \/ w' = set_blobs (delete code_id (blobs w)) w
  \/ w' = set_blobs (delete (sidecar code_id) (delete code_id (blobs w)))
            (set_blobs (delete code_id (blobs w)) w).
Proof.
  unfold delete_qr_code, try_except, raise, ret, bind.
  rewrite delete_blob_run. fold (sidecar code_id).
  destruct (faults w OpDelete code_id); [|by left..].
  destruct (blobs w !! code_id); [|by left].
  rewrite blob_exists_run, faults_set_blobs, blobs_set_blobs, storage_set_blobs.
  destruct (faults w OpExists (sidecar code_id)).
  - destruct (delete code_id (blobs w) !! sidecar code_id) eqn:Hs; simpl;
      [|by right; left].
    rewrite delete_blob_run, faults_set_blobs, blobs_set_blobs, Hs.
    destruct (faults w OpDelete (sidecar code_id)); simpl; auto.
  - simpl. by right; left.
  - destruct (storage w); simpl; by right; left.
Qed.

(** X16. A DELETE touches the image and its sidecar only, and never adds
    an object: every stored name reads as before or, being one of the two,
    reads as missing. *)
Theorem delete_frame eval render e code_id w :
  let w' := snd (handle eval render e (DELETE_qrcode code_id) w) in
  forall name,
    blobs w' !! name = blobs w !! name
    \/ (blobs w' !! name = None /\ (name = code_id \/ name = sidecar code_id)).
Proof.
  intros w' name.
  assert (Hw : w' = snd (delete_qr_code code_id w)).
  { unfold w', handle, respond.
    by destruct (delete_qr_code code_id w) as [[a|[s d|c]] w2]. }
  rewrite Hw.
  destruct (delete_qr_code_worlds code_id w) as [->|[->| ->]];
    rewrite ?blobs_set_blobs.
  - by left.
  - destruct (decide (name = code_id)) as [->|Hne].
    + right. split; [apply lookup_delete_eq|by left].
    + left. by apply lookup_delete_ne.
  - destruct (decide (name = sidecar code_id)) as [->|Hs].
    + right. split; [apply lookup_delete_eq|by right].
    + rewrite lookup_delete_ne by done.
      destruct (decide (name = code_id)) as [->|Hne].
      * right. split; [apply lookup_delete_eq|by left].
      * left. by apply lookup_delete_ne.
Qed.

(** X17. A 404 of DELETE does not mean that nothing was deleted: when the
    image is removed and the delete of its sidecar then fails, the handler
    answers 404, the image is gone and the sidecar is still stored. *)
Theorem delete_partial_failure eval render e code_id w b b' :
  blobs w !! code_id = Some b ->
  blobs w !! sidecar code_id = Some b' ->
  faults w OpDelete code_id = NoFault ->
  faults w OpExists (sidecar code_id) = NoFault ->
  faults w OpDelete (sidecar code_id) <> NoFault ->
  exists w',
    handle eval render e (DELETE_qrcode code_id) w
    = (mk_response 404 (Detail "QR code not found"), w')
    /\ blobs w' !! code_id = None
    /\ blobs w' !! sidecar code_id = Some b'.
Proof.
  intros Hb Hs Hd He Hds.
  unfold handle, respond, delete_qr_code, try_except, raise, ret, bind.
  rewrite delete_blob_run, Hd, Hb. fold (sidecar code_id).
  rewrite blob_exists_run, faults_set_blobs, blobs_set_blobs, He.
  assert (Hs' : delete code_id (blobs w) !! sidecar code_id = Some b').
  { rewrite lookup_delete_ne; [done|].
    intros H. symmetry in H. by apply sidecar_not_image in H. }
  rewrite Hs'. simpl.
  rewrite delete_blob_run, faults_set_blobs, blobs_set_blobs, Hs'.
  destruct (faults w OpDelete (sidecar code_id)); [done|..];
    (eexists; split; [reflexivity|]; simpl; split;
     [apply lookup_delete_eq|done]).
Qed.

Lemma delete_partial_failure_witness :
  exists w',
    handle literal_eval Demo.render Demo.env1 (DELETE_qrcode "abc.png")
      (set_faults
         (fun o name =>
            match o with
            | OpDelete => if String.eqb name "abc.metadata"
                          then ServiceError else NoFault
            | _ => NoFault
            end) Demo.with_abc)
    = (mk_response 404 (Detail "QR code not found"), w')
    /\ blobs w' !! "abc.png" = None
    /\ blobs w' !! sidecar "abc.png" = Some Demo.sidecar_abc.
Proof.
  apply (delete_partial_failure literal_eval Demo.render Demo.env1 "abc.png" _
           (mk_blob "PNG" (Some "image/png")) Demo.sidecar_abc).
  - vm_compute. reflexivity.
  - vm_compute. reflexivity.
  - reflexivity.
  - reflexivity.
  - vm_compute. discriminate.
Defined.

Lemma check_qr_code_run code_id w :
  check_qr_code code_id w
  = (match faults w OpExists code_id, blobs w !! code_id with
     | NoFault, Some _ => Return tt
     | _, _ => Raise (HTTPException 404 "QR code not found")
     end, w).
Proof.
  unfold check_qr_code, try_except, raise, ret, bind.
  rewrite blob_exists_run.
  destruct (faults w OpExists code_id); simpl;
    [by destruct (blobs w !! code_id)|reflexivity|by destruct (storage w)].
Qed.

(** X18. HEAD follows the life of the object: after a create or an upload
    answered with 201, HEAD of the returned id answers 200 as soon as its
    probe succeeds; after a DELETE answered with 204, HEAD answers 404
    whatever the backend does. *)
Theorem head_after_write_and_delete eval render e e' r w resp w' :
  handle eval render e r w = (resp, w') ->
  (status_code resp = 201 ->
   exists code_id url,
     payload resp = Created (QRCodeResponse.mk code_id url)
     /\ forall f,
          f OpExists code_id = NoFault ->
          fst (handle eval render e' (HEAD_qrcode code_id) (set_faults f w'))
          = mk_response 200 Empty)
  /\ (status_code resp = 204 ->
      exists code_id,
        r = DELETE_qrcode code_id
        /\ forall f,
             fst (handle eval render e' (HEAD_qrcode code_id) (set_faults f w'))
             = mk_response 404 (Detail "QR code not found")).
Proof.
  intros Hrun.
  assert (Hhead : forall code_id f,
            is_Some (blobs w' !! code_id) -> f OpExists code_id = NoFault ->
            fst (handle eval render e' (HEAD_qrcode code_id) (set_faults f w'))
            = mk_response 200 Empty).
  { intros code_id f [b Hb] Hf. unfold handle, respond.
    rewrite check_qr_code_run. cbn [faults blobs set_faults].
    by rewrite Hf, Hb. }
  destruct r as [body|code_id file xd xs|code_id|code_id|code_id|code_id];
    unfold handle at 1, respond in Hrun.
  - unfold create_qr_code, generate_qr_code in Hrun.
    destruct (render _ _) as [png|];
      [|injection Hrun as <- <-; split; discriminate].
    rewrite bind_ret in Hrun.
    destruct (store_image_cases eval (now e) (uuid_str (uuid4 e) ++ ".png") png
                (PStr (QRCodeRequest.data body)) (QRCodeRequest.size body) w)
      as [(_ & _ & Hh)|(cls & w2 & Hh & _)];
      rewrite Hh in Hrun; injection Hrun as <- <-;
      (split; [|discriminate]); [|discriminate].
    intros _. eexists _, _. split; [reflexivity|].
    intros f Hf. apply Hhead; [apply stored_both|done].
  - unfold upload_qr_code in Hrun.
    destruct (negb _); [injection Hrun as <- <-; split; discriminate|].
    destruct (store_image_cases eval (now e) code_id (UploadFile.file file)
                (match xd with Some s => PStr s | None => PNone end) xs w)
      as [(_ & _ & Hh)|(cls & w2 & Hh & _)];
      rewrite Hh in Hrun; injection Hrun as <- <-;
      (split; [|discriminate]); [|discriminate].
    intros _. eexists _, _. split; [reflexivity|].
    intros f Hf. apply Hhead; [apply stored_both|done].
  - destruct (get_qr_code_shape eval e code_id w)
      as [(a & w2 & Hh)|(w2 & Hh)];
      rewrite Hh in Hrun; injection Hrun as <- <-; split; discriminate.
  - destruct (get_qr_code_metadata_shape eval code_id w)
      as [(a & w2 & Hh)|(w2 & Hh)];
      rewrite Hh in Hrun; injection Hrun as <- <-; split; discriminate.
  - destruct (check_qr_code_shape code_id w)
      as [(a & w2 & Hh)|(w2 & Hh)];
      rewrite Hh in Hrun; injection Hrun as <- <-; split; discriminate.
  - split; [|intros Hst; exists code_id; split; [done|]].
    + destruct (delete_qr_code_shape code_id w)
        as [(a & w2 & Hh)|(w2 & Hh)];
        rewrite Hh in Hrun; injection Hrun as <- <-; discriminate.
    + destruct (delete_qr_code code_id w) as [[[]|ex] w2] eqn:Hdel.
      * injection Hrun as <- <-.
        apply delete_qr_code_returns in Hdel as (_ & _ & Himg & _).
        intros f. unfold handle, respond. rewrite check_qr_code_run.
        cbn [faults blobs set_faults]. rewrite Himg.
        by destruct (f OpExists code_id).
      * exfalso.
        destruct (delete_qr_code_shape code_id w)
          as [(a & w3 & Hd)|(w3 & Hd)]; rewrite Hd in Hdel; [discriminate|].
        injection Hdel as <- <-. injection Hrun as <- <-. discriminate.
Qed.

Lemma head_after_write_and_delete_witness :
  let out :=
    handle literal_eval Demo.render Demo.env0
      (PUT_qrcode "logo.png" Demo.png None 300) Demo.empty in
  (status_code (fst out) = 201 ->
   exists code_id url,
     payload (fst out) = Created (QRCodeResponse.mk code_id url)
     /\ forall f,
          f OpExists code_id = NoFault ->
          fst (handle literal_eval Demo.render Demo.env1 (HEAD_qrcode code_id)
                 (set_faults f (snd out)))
          = mk_response 200 Empty)
  /\ (status_code (fst out) = 204 ->
      exists code_id,
        PUT_qrcode "logo.png" Demo.png None 300 = DELETE_qrcode code_id
        /\ forall f,
             fst (handle literal_eval Demo.render Demo.env1 (HEAD_qrcode code_id)
                    (set_faults f (snd out)))
             = mk_response 404 (Detail "QR code not found")).
Proof.
  apply (head_after_write_and_delete literal_eval Demo.render Demo.env0
           Demo.env1 (PUT_qrcode "logo.png" Demo.png None 300) Demo.empty).
  by destruct (handle _ _ _ _ _).
Defined.

(** ** Series of requests *)

#[local] Arguments Series.bump : simpl never.

Lemma touch_bump now n d :
  dict_get "access_count" d = Some (PInt n) ->
  touch now (PDict d) = Return (PDict (Series.bump now n d)).
Proof. intros Hn. unfold touch, getitem. by rewrite Hn. Qed.

Lemma bump_access_count now n d :
  dict_get "access_count" (Series.bump now n d) = Some (PInt (n + 1)).
Proof.
  unfold Series.bump. rewrite dict_get_set_ne by done. apply dict_get_set_eq.
Qed.

Lemma bumps_access_count nows n d :
  dict_get "access_count" d = Some (PInt n) ->
  dict_get "access_count" (Series.bumps nows n d)
  = Some (PInt (n + Z.of_nat (length nows))).
Proof.
  revert n d. induction nows as [|t nows IH]; intros n d Hn; simpl.
  - rewrite Hn. do 2 f_equal. lia.
  - rewrite IH by apply bump_access_count. do 2 f_equal. lia.
Qed.

Lemma bumps_other nows n d k :
  k <> "access_count" -> k <> "last_accessed" ->
  dict_get k (Series.bumps nows n d) = dict_get k d.
Proof.
  intros H1 H2. revert n d. induction nows as [|t nows IH]; intros n d; simpl;
    [done|].
  rewrite IH. unfold Series.bump. by rewrite !dict_get_set_ne.
Qed.

(** X19. The counter counts the GETs: on a backend without failures, for a
    stored image whose sidecar evaluates to a record with the integer
    [access_count] [n], after [k] successive GETs the stored record has
    [access_count] [n + k], its [last_accessed] is the time of the last GET,
    every other field is as at the start, and the image is untouched (the
    evaluator reading back each record written on the way). *)
Theorem gets_count_accesses eval render es code_id w img b d n :
  blobs w !! code_id = Some img ->
  (forall name, quiet w name) ->
  blobs w !! sidecar code_id = Some b ->
  eval (body b) = Return (PDict d) ->
  dict_get "access_count" d = Some (PInt n) ->
  (forall j, (1 <= j <= length es)%nat ->
             eval (str (PDict (Series.bumps (map now (take j es)) n d)))
             = Return (PDict (Series.bumps (map now (take j es)) n d))) ->
  let w' := Series.get_all eval render es code_id w in
  let d' := Series.bumps (map now es) n d in
  (es <> [] -> stored eval w' (sidecar code_id) = Some (PDict d'))
  /\ dict_get "access_count" d' = Some (PInt (n + Z.of_nat (length es)))
  /\ (forall e, last es = Some e ->
                dict_get "last_accessed" d' = Some (PStr (isoformat (now e))))
  /\ (forall k, k <> "access_count" -> k <> "last_accessed" ->
                dict_get k d' = dict_get k d)
  /\ blobs w' !! code_id = Some img.
Proof.
  intros Himg Hq Hb Hev Hn Hrt w' d'.
  split; [|split; [|split; [|split]]].
  - (* the stored record, by induction on the series *)
    unfold w', d'. clear w' d'.
    revert w b d n Himg Hq Hb Hev Hn Hrt.
    induction es as [|e es IH]; intros w b d n Himg Hq Hb Hev Hn Hrt Hne;
      [done|].
    cbn [Series.get_all map Series.bumps].
    assert (Hstep : snd (handle eval render e (GET_qrcode code_id) w)
                    = upserted eval (now e) (replace_png code_id) (PStr "") 0
                        true w).
    { unfold handle, respond.
      by rewrite (get_qr_code_run eval e code_id w img Himg
                    (Hq _ _) (Hq _ _) (Hq _ _)). }
    rewrite Hstep.
    assert (Hm : merged eval (now e) (replace_png code_id) (PStr "") 0 true w
                 = PDict (Series.bump (now e) n d)).
    { unfold merged, load. fold (sidecar code_id).
      by rewrite !Hq, Hb, Hev, (touch_bump _ n). }
    assert (Hside : blobs (upserted eval (now e) (replace_png code_id)
                             (PStr "") 0 true w) !! sidecar code_id
                    = Some (mk_blob (str (PDict (Series.bump (now e) n d)))
                              (Some "application/json")))
      by (by rewrite upserted_sidecar, Hm).
    assert (Hone : eval (str (PDict (Series.bump (now e) n d)))
                   = Return (PDict (Series.bump (now e) n d)))
      by (apply (Hrt 1%nat); simpl; lia).
    destruct es as [|e2 es'].
    + simpl. unfold stored. rewrite Hside. simpl. by rewrite Hone.
    + apply (IH _ (mk_blob (str (PDict (Series.bump (now e) n d)))
                     (Some "application/json"))
               (Series.bump (now e) n d) (n + 1)).
      * by rewrite upserted_image.
      * intros name o. apply Hq.
      * exact Hside.
      * exact Hone.
      * apply bump_access_count.
      * intros j Hj. apply (Hrt (S j)). simpl in *. lia.
      * done.
  - unfold d'. rewrite bumps_access_count by done. by rewrite length_map.
  - unfold d'. clear Hrt w' d' Hev Hb. revert n d Hn.
    induction es as [|e1 es IH]; intros n d Hn e Hlast; [done|].
    destruct es as [|e2 es'].
    + injection Hlast as <-. simpl. unfold Series.bump. apply dict_get_set_eq.
    + cbn [map Series.bumps]. apply (IH (n + 1) _ (bump_access_count _ _ _)).
      done.
  - intros k H1 H2. by apply bumps_other.
  - unfold w'. clear w' d' Hrt Hb Hev Hn.
    revert w Himg Hq. induction es as [|e es IH]; intros w Himg Hq; [done|].
    cbn [Series.get_all].
    assert (Hstep : snd (handle eval render e (GET_qrcode code_id) w)
                    = upserted eval (now e) (replace_png code_id) (PStr "") 0
                        true w).
    { unfold handle, respond.
      by rewrite (get_qr_code_run eval e code_id w img Himg
                    (Hq _ _) (Hq _ _) (Hq _ _)). }
    rewrite Hstep. apply IH.
    + by rewrite upserted_image.
    + intros name o. apply Hq.
Qed.

Lemma gets_count_accesses_witness :
  let es := [Demo.env0; Demo.env1] in
  let w' := Series.get_all literal_eval Demo.render es "abc.png" Demo.with_abc in
  let d' := Series.bumps (map now es) 4 Demo.record_abc in
  (es <> [] -> stored literal_eval w' (sidecar "abc.png") = Some (PDict d'))
  /\ dict_get "access_count" d' = Some (PInt (4 + Z.of_nat (length es)))
  /\ (forall e, last es = Some e ->
                dict_get "last_accessed" d' = Some (PStr (isoformat (now e))))
  /\ (forall k, k <> "access_count" -> k <> "last_accessed" ->
                dict_get k d' = dict_get k Demo.record_abc)
  /\ blobs w' !! "abc.png" = Some (mk_blob "PNG" (Some "image/png")).
Proof.
  apply (gets_count_accesses literal_eval Demo.render [Demo.env0; Demo.env1]
           "abc.png" Demo.with_abc (mk_blob "PNG" (Some "image/png"))
           Demo.sidecar_abc Demo.record_abc 4).
  - vm_compute. reflexivity.
  - intros name o. reflexivity.
  - vm_compute. reflexivity.
  - vm_compute. reflexivity.
  - reflexivity.
  - intros j Hj. destruct j as [|[|[|j]]].
    + simpl in Hj. lia.
    + vm_compute. reflexivity.
    + vm_compute. reflexivity.
    + simpl in Hj. lia.
Defined.

(** ** The load-test scenario *)

Lemma create_qr_code_run eval render e request png w :
  let code_id := uuid_str (uuid4 e) ++ ".png" in
  render (QRCodeRequest.data request) (QRCodeRequest.size request) = Some png ->
  faults w OpUpload code_id = NoFault ->
  faults w OpUpload (sidecar code_id) = NoFault ->
  create_qr_code eval render e request w
  = (Return (QRCodeResponse.mk code_id (root_path ++ "/api/qrcodes/" ++ code_id)),
     upserted eval (now e) (replace_png code_id)
       (PStr (QRCodeRequest.data request)) (QRCodeRequest.size request) false
       (set_blobs (<[code_id := mk_blob png (Some "image/png")]> (blobs w)) w)).
Proof.
  intros code_id Hr Hi Hs. unfold create_qr_code, generate_qr_code.
  rewrite Hr, bind_ret. fold code_id.
  destruct (store_image_cases eval (now e) code_id png
              (PStr (QRCodeRequest.data request)) (QRCodeRequest.size request) w)
    as [(_ & _ & ->)|(cls & w' & _ & [H|H])]; done.
Qed.

(** DELETE when the image and its sidecar are stored and no call on them
    fails. *)
Lemma delete_qr_code_run code_id w b b' :
  blobs w !! code_id = Some b ->
  blobs w !! sidecar code_id = Some b' ->
  quiet w code_id -> quiet w (sidecar code_id) ->
  delete_qr_code code_id w
  = (Return tt,
     set_blobs (delete (sidecar code_id) (delete code_id (blobs w)))
       (set_blobs (delete code_id (blobs w)) w)).
Proof.
  intros Hb Hs Hq Hqs.
  unfold delete_qr_code, try_except, raise, ret, bind.
  rewrite delete_blob_run, Hq, Hb. fold (sidecar code_id).
  rewrite blob_exists_run, faults_set_blobs, blobs_set_blobs, Hqs.
  assert (Hs' : delete code_id (blobs w) !! sidecar code_id = Some b').
  { rewrite lookup_delete_ne; [done|].
    intros H. symmetry in H. by apply sidecar_not_image in H. }
  rewrite Hs'. simpl.
  by rewrite delete_blob_run, faults_set_blobs, blobs_set_blobs, Hs', Hqs.
Qed.

Lemma with_id_some (s : Locust.session) (k : string -> Locust.session) cid :
  Locust.qr_code_id (Locust.user s) = Some cid -> cid <> "" ->
  Locust.with_id s k = k cid.
Proof.
  intros Hid Hne. unfold Locust.with_id. rewrite Hid. by destruct cid.
Qed.

Lemma append_png_nonempty s : exists a rest, s ++ ".png" = String a rest.
Proof. destruct s; eexists _, _; reflexivity. Qed.

(** X20. The scenario of the load test against a server without failures
    (the payload drawable, the UUID new, the evaluator reading back the two
    records written): the health check is marked as a failure, since the
    application has no route for it; create, get, metadata, delete and the
    final verification are marked as successes; and when the scenario ends
    the container holds exactly the objects it held before. *)
Theorem load_test_scenario eval render e1 e2 png w :
  let id := uuid_str (uuid4 e1) in
  let code_id := id ++ ".png" in
  let created :=
    PDict [("code_id", PStr id); ("data", PStr "https://github.com");
           ("size", PInt 300);
           ("created_at", PStr (isoformat (now e1)));
           ("last_accessed", PStr (isoformat (now e1)));
           ("access_count", PInt 1)] in
  let accessed :=
    PDict [("code_id", PStr id); ("data", PStr "https://github.com");
           ("size", PInt 300);
           ("created_at", PStr (isoformat (now e1)));
           ("last_accessed", PStr (isoformat (now e2)));
           ("access_count", PInt 2)] in
  render "https://github.com" 300 = Some png ->
  (forall name, quiet w name) ->
  blobs w !! code_id = None ->
  blobs w !! (id ++ ".metadata") = None ->
  datetime_ok (now e1) = true ->
  datetime_ok (now e2) = true ->
  eval (str created) = Return created ->
  eval (str accessed) = Return accessed ->
  let s :=
    Locust.run_scenario eval render e1 e2
      (Locust.mk_session (Locust.mk_user None) w []) in
  rev (Locust.log s)
  = [Locust.mk_entry "Check API Health" false;
     Locust.mk_entry "Create QR Code" true;
     Locust.mk_entry "Get QR Code Image" true;
     Locust.mk_entry "Get QR Code Metadata" true;
     Locust.mk_entry "Delete QR Code" true;
     Locust.mk_entry "Verify QR Code Deleted" true]
  /\ Locust.qr_code_id (Locust.user s) = Some code_id
  /\ blobs (Locust.server s) = blobs w.
Proof.
  intros id code_id created accessed Hr Hq Himg Hfresh Ht1 Ht2 Hc Ha s.
  assert (Hstrip : replace_png code_id = id) by apply replace_png_generated.
  assert (Hside : sidecar code_id = id ++ ".metadata")
    by (unfold sidecar; by rewrite Hstrip).
  destruct (append_png_nonempty id) as (a & rest & Hcid). fold code_id in Hcid.
  set (w0 := set_blobs (<[code_id := mk_blob png (Some "image/png")]> (blobs w)) w).
  set (wA := upserted eval (now e1) (replace_png code_id)
               (PStr "https://github.com") 300 false w0).
  set (wB := upserted eval (now e2) (replace_png code_id) (PStr "") 0 true wA).
  (* the requests, one by one *)
  assert (H1 : handle eval render e1
                 (POST_qrcodes (QRCodeRequest.mk "https://github.com" 300)) w
               = (mk_response 201
                    (Created (QRCodeResponse.mk code_id
                                (root_path ++ "/api/qrcodes/" ++ code_id))), wA)).
  { unfold handle, respond.
    by rewrite (create_qr_code_run eval render e1
                  (QRCodeRequest.mk "https://github.com" 300) png w
                  Hr (Hq _ _) (Hq _ _)). }
  assert (HmA : merged eval (now e1) (replace_png code_id)
                  (PStr "https://github.com") 300 false w0 = created).
  { unfold w0. rewrite merged_first_upload by (by rewrite Hside).
    unfold new_metadata. by rewrite Hstrip. }
  assert (HA_side : blobs wA !! sidecar code_id
                    = Some (mk_blob (str created) (Some "application/json")))
    by (unfold wA; by rewrite upserted_sidecar, HmA).
  assert (HA_img : blobs wA !! code_id = Some (mk_blob png (Some "image/png"))).
  { unfold wA. rewrite upserted_image. unfold w0. rewrite blobs_set_blobs.
    apply lookup_insert_eq. }
  assert (HqA : forall name, quiet wA name) by (intros name o; apply Hq).
  assert (H2 : handle eval render e2 (GET_qrcode code_id) wA
               = (mk_response 200 (Image (chunks (chunk w) png)), wB)).
  { unfold handle, respond.
    by rewrite (get_qr_code_run eval e2 code_id wA _ HA_img
                  (HqA _ _) (HqA _ _) (HqA _ _)). }
  assert (HmB : merged eval (now e2) (replace_png code_id) (PStr "") 0 true wA
                = accessed).
  { unfold merged, load. fold (sidecar code_id).
    rewrite !HqA, HA_side. cbn [body]. by rewrite Hc. }
  assert (HB_side : blobs wB !! sidecar code_id
                    = Some (mk_blob (str accessed) (Some "application/json")))
    by (unfold wB; by rewrite upserted_sidecar, HmB).
  assert (HB_img : blobs wB !! code_id = Some (mk_blob png (Some "image/png")))
    by (unfold wB; by rewrite upserted_image).
  assert (HqB : forall name, quiet wB name) by (intros name o; apply Hq).
  assert (H3 : handle eval render e2 (GET_qrcode_metadata id) wB
               = (mk_response 200
                    (Metadata (QRCodeMetadata.mk id "https://github.com" 300
                                 (now e1) (now e2) 2)), wB)).
  { unfold handle, respond.
    rewrite (get_qr_code_metadata_found eval id wB
               (mk_blob (str accessed) (Some "application/json")) accessed
               (QRCodeMetadata.mk id "https://github.com" 300 (now e1) (now e2) 2)
               (HqB _ _) (HqB _ _)); [done|by rewrite <- Hside|done|].
    unfold QRCodeMetadata.new, QRCodeMetadata.str_field,
      QRCodeMetadata.int_field, QRCodeMetadata.datetime_field. simpl.
    by rewrite !fromisoformat_isoformat. }
  set (wC := set_blobs (delete (sidecar code_id) (delete code_id (blobs wB)))
               (set_blobs (delete code_id (blobs wB)) wB)).
  assert (H4 : handle eval render e2 (DELETE_qrcode code_id) wB
               = (mk_response 204 Empty, wC)).
  { unfold handle, respond.
    by rewrite (delete_qr_code_run code_id wB _ _ HB_img HB_side
                  (HqB _) (HqB _)). }
  assert (H5 : handle eval render e2 (GET_qrcode code_id) wC
               = (mk_response 404 (Detail "QR code not found"), wC)).
  { unfold handle, respond. rewrite get_qr_code_absent; [done|].
    unfold wC. rewrite blobs_set_blobs.
    rewrite lookup_delete_ne by apply sidecar_not_image.
    apply lookup_delete_eq. }
  (* the container at the end *)
  assert (Hend : blobs wC = blobs w).
  { unfold wC. rewrite blobs_set_blobs. apply map_eq. intros k.
    destruct (decide (k = sidecar code_id)) as [->|Hk1].
    { rewrite lookup_delete_eq. by rewrite Hside, Hfresh. }
    rewrite lookup_delete_ne by done.
    destruct (decide (k = code_id)) as [->|Hk2].
    { by rewrite lookup_delete_eq, Himg. }
    rewrite lookup_delete_ne by done.
    unfold wB, upserted. rewrite blobs_set_blobs. fold (sidecar code_id).
    rewrite lookup_insert_ne by done.
    unfold wA, upserted. rewrite blobs_set_blobs. fold (sidecar code_id).
    rewrite lookup_insert_ne by done.
    unfold w0. rewrite blobs_set_blobs. by rewrite lookup_insert_ne. }
  (* the scenario *)
  assert (Hne : code_id <> "") by (rewrite Hcid; done).
  assert (Heqb : String.eqb code_id "" = false) by (by apply String.eqb_neq).
  unfold s, Locust.run_scenario.
  assert (S1 : forall u l,
             Locust.check_api_health eval render e1 (Locust.mk_session u w l)
             = Locust.mk_session u w
                 (Locust.mk_entry "Check API Health" false :: l))
    by reflexivity.
  rewrite S1.
  assert (S2 : forall u l,
             Locust.create_qr_code eval render e1 (Locust.mk_session u w l)
             = Locust.mk_session (Locust.mk_user (Some code_id)) wA
                 (Locust.mk_entry "Create QR Code" true :: l)).
  { intros u l. unfold Locust.create_qr_code, Locust.serve.
    cbn [Locust.server]. rewrite H1.
    cbn [status_code payload QRCodeResponse.code_id Locust.log Locust.user].
    by rewrite Heqb. }
  rewrite S2.
  assert (S3 : forall l,
             Locust.get_qr_code_image eval render e2
               (Locust.mk_session (Locust.mk_user (Some code_id)) wA l)
             = Locust.mk_session (Locust.mk_user (Some code_id)) wB
                 (Locust.mk_entry "Get QR Code Image" true :: l)).
  { intros l. unfold Locust.get_qr_code_image.
    rewrite (with_id_some _ _ code_id) by done.
    unfold Locust.serve. cbn [Locust.server]. by rewrite H2. }
  rewrite S3.
  assert (S4 : forall l,
             Locust.get_qr_code_metadata eval render e2
               (Locust.mk_session (Locust.mk_user (Some code_id)) wB l)
             = Locust.mk_session (Locust.mk_user (Some code_id)) wB
                 (Locust.mk_entry "Get QR Code Metadata" true :: l)).
  { intros l. unfold Locust.get_qr_code_metadata.
    rewrite (with_id_some _ _ code_id) by done.
    unfold Locust.serve. cbn [Locust.server]. by rewrite Hstrip, H3. }
  rewrite S4.
  assert (S5 : forall l,
             Locust.delete_qr_code eval render e2
               (Locust.mk_session (Locust.mk_user (Some code_id)) wB l)
             = Locust.mk_session (Locust.mk_user (Some code_id)) wC
                 (Locust.mk_entry "Delete QR Code" true :: l)).
  { intros l. unfold Locust.delete_qr_code.
    rewrite (with_id_some _ _ code_id) by done.
    unfold Locust.serve. cbn [Locust.server]. by rewrite H4. }
  rewrite S5.
  assert (S6 : forall l,
             Locust.verify_qr_code_deleted eval render e2
               (Locust.mk_session (Locust.mk_user (Some code_id)) wC l)
             = Locust.mk_session (Locust.mk_user (Some code_id)) wC
                 (Locust.mk_entry "Verify QR Code Deleted" true :: l)).
  { intros l. unfold Locust.verify_qr_code_deleted.
    rewrite (with_id_some _ _ code_id) by done.
    unfold Locust.serve. cbn [Locust.server]. by rewrite H5. }
  rewrite S6.
  cbn [Locust.log Locust.user Locust.server Locust.qr_code_id].
  split; [reflexivity|]. split; [reflexivity|exact Hend].
Qed.

Lemma load_test_scenario_witness :
  let s :=
    Locust.run_scenario literal_eval Demo.render Demo.env0 Demo.env1
      (Locust.mk_session (Locust.mk_user None) Demo.empty []) in
  rev (Locust.log s)
  = [Locust.mk_entry "Check API Health" false;
     Locust.mk_entry "Create QR Code" true;
     Locust.mk_entry "Get QR Code Image" true;
     Locust.mk_entry "Get QR Code Metadata" true;
     Locust.mk_entry "Delete QR Code" true;
     Locust.mk_entry "Verify QR Code Deleted" true]
  /\ Locust.qr_code_id (Locust.user s)
     = Some (uuid_str (uuid4 Demo.env0) ++ ".png")
  /\ blobs (Locust.server s) = blobs Demo.empty.
Proof.
  apply (load_test_scenario literal_eval Demo.render Demo.env0 Demo.env1 "PNG"
           Demo.empty).
  - reflexivity.
  - intros name o. reflexivity.
  - vm_compute. reflexivity.
  - vm_compute. reflexivity.
  - vm_compute. reflexivity.
  - vm_compute. reflexivity.
  - vm_compute. reflexivity.
  - vm_compute. reflexivity.
Defined.

(** ** Start-up *)

(** X21. The start-up of the Azure provider never fails at the creation of
    the container: an existing container is left as it is, a missing one is
    created when the request succeeds, no container is ever removed, and
    running it a second time changes nothing. A failed request is passed
    over as well, the container then still missing. *)
Theorem azure_initialize_tolerant self s :
  exists s',
    Startup.azure_initialize self s = (Return tt, s')
    /\ Startup.failing s' = Startup.failing s
    /\ Startup.containers s ⊆ Startup.containers s'
    /\ (container_name self ∈ Startup.containers s -> s' = s)
    /\ (Startup.failing s Startup.CreateContainer = NoFault ->
        container_name self ∈ Startup.containers s')
    /\ (Startup.failing s Startup.CreateContainer <> NoFault -> s' = s)
    /\ Startup.azure_initialize self s' = (Return tt, s').
Proof.
  unfold Startup.azure_initialize, Startup.create_container.
  destruct (Startup.failing s Startup.CreateContainer) eqn:Hf.
  - destruct (bool_decide (container_name self ∈ Startup.containers s))
      eqn:Hin.
    + apply bool_decide_eq_true in Hin.
      exists s. rewrite Hf, bool_decide_eq_true_2 by done.
      repeat split; done.
    + apply bool_decide_eq_false in Hin.
      eexists. split; [reflexivity|]. simpl. rewrite Hf.
      rewrite bool_decide_eq_true_2 by set_solver.
      repeat split; try done; set_solver.
  - exists s. rewrite Hf. repeat split; done.
  - exists s. rewrite Hf. repeat split; done.
Qed.

(** X22. The start-up of the MinIO provider: an existing bucket is left as
    it is without any attempt to make it; a missing bucket is made when
    both requests succeed; an [S3Error] of either request is passed over;
    the start-up raises only when a request fails with another exception,
    and it never removes a bucket. *)
Theorem minio_initialize_cases self s :
  let name := bucket_name self in
  let out := Startup.minio_initialize self s in
  Startup.containers s ⊆ Startup.containers (snd out)
  /\ (name ∈ Startup.containers s ->
      Startup.failing s Startup.BucketExists = NoFault ->
      out = (Return tt, s))
  /\ (Startup.failing s Startup.BucketExists = NoFault ->
      Startup.failing s Startup.MakeBucket = NoFault ->
      fst out = Return tt /\ name ∈ Startup.containers (snd out))
  /\ (Startup.failing s Startup.BucketExists = ServiceError ->
      out = (Return tt, s))
  /\ (Startup.failing s Startup.BucketExists = NoFault ->
      Startup.failing s Startup.MakeBucket = ServiceError ->
      out = (Return tt, s))
  /\ (forall e, fst out = Raise e ->
        snd out = s
        /\ (Startup.failing s Startup.BucketExists = TransportError
            \/ ((name ∉ Startup.containers s)
                /\ Startup.failing s Startup.MakeBucket = TransportError))).
Proof.
  intros name out. unfold out, Startup.minio_initialize, Startup.bucket_exists,
    Startup.make_bucket. fold name.
  destruct (Startup.failing s Startup.BucketExists) eqn:He; simpl.
  - destruct (bool_decide (name ∈ Startup.containers s)) eqn:Hin; simpl.
    + apply bool_decide_eq_true in Hin. repeat split; try done.
    + apply bool_decide_eq_false in Hin.
      destruct (Startup.failing s Startup.MakeBucket) eqn:Hm; simpl.
      * repeat split; try done; set_solver.
      * repeat split; try done.
      * repeat split; try done. right. by split.
  - repeat split; done.
  - repeat split; try done. by left.
Qed.
